(** * Rows of a rendered block: core/renderers/measurables/rows.js

    A shallow embedding of [Blockly.blockRendering.Row] and its four
    subclasses ([TopRow], [BottomRow], [SpacerRow], [InputRow]) together
    with the properties of [populate], [measure], [getFirstSpacer] and
    [getLastSpacer].

    JavaScript numbers are modelled by [Z] (layout units), [Math.max] by
    [Z.max], objects by records, and a method that mutates [this] by a
    function from the old record to the new one.  The code adds numbers one
    after the other; the statements about sums keep that order
    ([runningWidth], [connectedBlockWidthsOf]), and the others are
    equalities of copied fields, maxima and inequalities, so that no
    property depends on regrouping a sum.  A [throw] is an explicit
    [Throw] completion that carries the state of the receiver at the moment
    of the throw. *)

From Stdlib Require Import ZArith Lia.
From stdpp Require Import base list strings.

Open Scope Z_scope.

(** ** JavaScript values and completions *)

(** The outcome of a method call: normal completion with the new state of the
    receiver, or an exception with its message and the state reached when it
    was thrown. *)
Inductive Completion (St : Type) : Type :=
| Normal (s : St)
| Throw (message : string) (s : St).
Arguments Normal {St} s.
Arguments Throw {St} message s.

(** Sequencing of two calls on the same receiver: an exception of the first
    call skips the second. *)
Definition andThen {St : Type} (c : Completion St)
    (k : St -> Completion St) : Completion St :=
  match c with
  | Normal s => k s
  | Throw m s => Throw m s
  end.

(** ** Measurables

    [Blockly.blockRendering.Measurable] and its subclasses live in other
    files; rows.js reads the fields below from the elements of a row. *)
Module Measurable.
Record t : Type := mk {
  type : string;
  isInput : bool;
  width : Z;
  height : Z;
  startY : Z;
  connectedBlockWidth : Z;
  connectionWidth : Z
}.
End Measurable.

(** The values a loop condition or an [if] of rows.js can see. *)
Inductive JsValue : Type :=
| JsUndefined
| JsNull
| JsBoolean (b : bool)
| JsNumber (n : Z)
| JsFunction (name : string)
| JsObject (m : Measurable.t).

(** ECMAScript ToBoolean on these values. *)
Definition ToBoolean (v : JsValue) : bool :=
  match v with
  | JsUndefined | JsNull => false
  | JsBoolean b => b
  | JsNumber n => negb (n =? 0)
  | JsFunction _ | JsObject _ => true
  end.

(** [elements[i]]: the element, or [undefined] out of range. *)
Definition elementAt (elements : list Measurable.t) (i : nat) : JsValue :=
  match elements !! i with
  | Some elem => JsObject elem
  | None => JsUndefined
  end.

(** [elem.isSpacer] without a call: the method inherited from
    [Measurable.prototype], a function object. *)
Definition isSpacer_property (elem : Measurable.t) : JsValue :=
  JsFunction "isSpacer".

(** ** The host block *)

Definition BlockId : Type := nat.
Definition RenderedConnection : Type := nat.

Module Input.
Record t : Type := mk { type : Z }.
End Input.

Module BlockSvg.
(** What [populate] reads of the block returned by [getPreviousBlock()]:
    its identity and the result of its [getNextBlock()]. *)
Record neighbour : Type := mkNeighbour {
  neighbourId : BlockId;
  neighbourNextBlock : option BlockId
}.

Record t : Type := mk {
  id : BlockId;
  hat : option string;
  previousConnection : option RenderedConnection;
  nextConnection : option RenderedConnection;
  outputConnection : option RenderedConnection;
  inputList : list Input.t;
  isCollapsed : bool;
  getInputsInline : bool;
  getPreviousBlock : option neighbour;
  getNextBlock : option BlockId
}.
End BlockSvg.

(** ** What rows.js takes from other files

    Constants ([Blockly.blockRendering.constants], [Blockly.NEXT_STATEMENT],
    [Blockly.BlockSvg.START_HAT]), the method [Measurable.prototype.isSpacer]
    and the constructors of the measurables that [populate] and [SpacerRow]
    create.  They are parameters of the development. *)
Record Env : Type := mkEnv {
  isSpacer : Measurable.t -> bool;
  START_HAT : bool;
  NEXT_STATEMENT : Z;
  LARGE_PADDING : Z;
  MEDIUM_PADDING : Z;
  NOTCH_height : Z;
  SquareCorner : Measurable.t;
  RoundCorner : Measurable.t;
  Hat : Measurable.t;
  PreviousConnection : RenderedConnection -> Measurable.t;
  NextConnection : RenderedConnection -> Measurable.t;
  InRowSpacer : Z -> Measurable.t
}.

(** ** Row *)
Module Row.
Record t : Type := mk {
  type : string;
  elements : list Measurable.t;
  height : Z;
  width : Z;
  minHeight : Z;
  minWidth : Z;
  widthWithConnectedBlocks : Z;
  yPos : Z;
  xPos : Z;
  hasExternalInput : bool;
  hasStatement : bool;
  hasInlineInput : bool;
  hasDummyInput : bool;
  hasJaggedEdge : bool
}.

(** [new Blockly.blockRendering.Row()] *)
Definition new : t :=
  mk "row" [] 0 0 0 0 0 0 0 false false false false false.

Definition set_type (v : string) (r : t) : t :=
  mk v (elements r) (height r) (width r) (minHeight r) (minWidth r)
     (widthWithConnectedBlocks r) (yPos r) (xPos r) (hasExternalInput r)
     (hasStatement r) (hasInlineInput r) (hasDummyInput r) (hasJaggedEdge r).

Definition set_elements (v : list Measurable.t) (r : t) : t :=
  mk (type r) v (height r) (width r) (minHeight r) (minWidth r)
     (widthWithConnectedBlocks r) (yPos r) (xPos r) (hasExternalInput r)
     (hasStatement r) (hasInlineInput r) (hasDummyInput r) (hasJaggedEdge r).

Definition set_height (v : Z) (r : t) : t :=
  mk (type r) (elements r) v (width r) (minHeight r) (minWidth r)
     (widthWithConnectedBlocks r) (yPos r) (xPos r) (hasExternalInput r)
     (hasStatement r) (hasInlineInput r) (hasDummyInput r) (hasJaggedEdge r).

Definition set_width (v : Z) (r : t) : t :=
  mk (type r) (elements r) (height r) v (minHeight r) (minWidth r)
     (widthWithConnectedBlocks r) (yPos r) (xPos r) (hasExternalInput r)
     (hasStatement r) (hasInlineInput r) (hasDummyInput r) (hasJaggedEdge r).

Definition set_minHeight (v : Z) (r : t) : t :=
  mk (type r) (elements r) (height r) (width r) v (minWidth r)
     (widthWithConnectedBlocks r) (yPos r) (xPos r) (hasExternalInput r)
     (hasStatement r) (hasInlineInput r) (hasDummyInput r) (hasJaggedEdge r).

Definition set_widthWithConnectedBlocks (v : Z) (r : t) : t :=
  mk (type r) (elements r) (height r) (width r) (minHeight r) (minWidth r)
     v (yPos r) (xPos r) (hasExternalInput r)
     (hasStatement r) (hasInlineInput r) (hasDummyInput r) (hasJaggedEdge r).

(** [this.elements.push(elem)] *)
Definition push (elem : Measurable.t) (r : t) : t :=
  set_elements (elements r ++ [elem]) r.

(** [Row.prototype.measure]: the abstract method. *)
Definition measure (r : t) : Completion t :=
  Throw "Unexpected attempt to measure a base Row." r.

(** The loop of [Row.prototype.getFirstSpacer], from index [i] on, [rest]
    being [elements.slice(i)]: it stops when [elements[i]] is falsy, and
    tests the property [elem.isSpacer]. *)
Fixpoint getFirstSpacer_loop (rest : list Measurable.t)
    : option Measurable.t :=
  match rest with
  | [] => None
  | elem :: rest' =>
      if ToBoolean (JsObject elem) then
        if ToBoolean (isSpacer_property elem) then Some elem
        else getFirstSpacer_loop rest'
      else None
  end.

Definition getFirstSpacer (elements : list Measurable.t)
    : option Measurable.t :=
  getFirstSpacer_loop elements.

(** The loop of [Row.prototype.getLastSpacer]; [n] is [i + 1], so that
    [n = 0] is the index [-1], where [elements[i]] is [undefined]. *)
Fixpoint getLastSpacer_loop (elements : list Measurable.t) (n : nat)
    : option Measurable.t :=
  match n with
  | O => None
  | S i =>
      match elementAt elements i with
      | JsObject elem =>
          if ToBoolean (isSpacer_property elem) then Some elem
          else getLastSpacer_loop elements i
      | _ => None
      end
  end.

Definition getLastSpacer (elements : list Measurable.t)
    : option Measurable.t :=
  getLastSpacer_loop elements (length elements).
End Row.

(** ** TopRow *)
Module TopRow.
Record t : Type := mk {
  base : Row.t;
  startY : Z;
  hasPreviousConnection : bool;
  connection : option Measurable.t
}.

(** [new Blockly.blockRendering.TopRow()] *)
Definition new : t := mk (Row.set_type "top row" Row.new) 0 false None.

Definition on_base (f : Row.t -> Row.t) (r : t) : t :=
  mk (f (base r)) (startY r) (hasPreviousConnection r) (connection r).
Definition set_startY (v : Z) (r : t) : t :=
  mk (base r) v (hasPreviousConnection r) (connection r).
Definition set_hasPreviousConnection (v : bool) (r : t) : t :=
  mk (base r) (startY r) v (connection r).
Definition set_connection (v : option Measurable.t) (r : t) : t :=
  mk (base r) (startY r) (hasPreviousConnection r) v.

Section WithEnv.
Variable env : Env.

(** [block.hat ? block.hat === 'cap' : Blockly.BlockSvg.START_HAT] *)
Definition hasHat (block : BlockSvg.t) : bool :=
  match BlockSvg.hat block with
  | Some h => if negb (String.eqb h "") then String.eqb h "cap"
              else START_HAT env
  | None => START_HAT env
  end.

(** [prevBlock && prevBlock.getNextBlock() == block] *)
Definition previousLeadsHere (block : BlockSvg.t) : bool :=
  match BlockSvg.getPreviousBlock block with
  | Some prevBlock =>
      match BlockSvg.neighbourNextBlock prevBlock with
      | Some next => Nat.eqb next (BlockSvg.id block)
      | None => false
      end
  | None => false
  end.

(** [!!block.outputConnection || hasHat ||
     (prevBlock && prevBlock.getNextBlock() == block)], as a truth value. *)
Definition squareCorner (block : BlockSvg.t) : bool :=
  bool_decide (is_Some (BlockSvg.outputConnection block))
  || hasHat block || previousLeadsHere block.

(** [block.inputList.length &&
     block.inputList[0].type == Blockly.NEXT_STATEMENT], as a truth value. *)
Definition precedesStatement (block : BlockSvg.t) : bool :=
  match BlockSvg.inputList block with
  | [] => false
  | first :: _ => Input.type first =? NEXT_STATEMENT env
  end.

(** [TopRow.prototype.populate] *)
Definition populate (r : t) (block : BlockSvg.t) : t :=
  let r :=
    if squareCorner block then on_base (Row.push (SquareCorner env)) r
    else on_base (Row.push (RoundCorner env)) r in
  let r :=
    if hasHat block then
      let hat := Hat env in
      let r := on_base (Row.push hat) r in
      set_startY (Measurable.startY hat) r
    else
      match BlockSvg.previousConnection block with
      | Some previousConnection =>
          let r := set_hasPreviousConnection true r in
          let conn := PreviousConnection env previousConnection in
          let r := set_connection (Some conn) r in
          on_base (Row.push conn) r
      | None => r
      end in
  if precedesStatement block && negb (BlockSvg.isCollapsed block) then
    on_base (Row.set_minHeight (LARGE_PADDING env)) r
  else
    on_base (Row.set_minHeight (MEDIUM_PADDING env)) r.

(** One iteration of the loop of [TopRow.prototype.measure]. *)
Definition measure_step (r : t) (elem : Measurable.t) : t :=
  let r :=
    on_base (fun b => Row.set_width (Row.width b + Measurable.width elem) b)
            r in
  if negb (isSpacer env elem) then
    let r :=
      if String.eqb (Measurable.type elem) "hat" then
        let r := set_startY (Measurable.startY elem) r in
        on_base (fun b =>
          Row.set_height (Row.height b + Measurable.height elem) b) r
      else r in
    on_base (fun b =>
      Row.set_height (Z.max (Row.height b) (Measurable.height elem)) b) r
  else r.

(** [TopRow.prototype.measure] *)
Definition measure (r : t) : t :=
  let r := on_base (fun b => Row.set_width (Row.minWidth b) b) r in
  let r := on_base (fun b => Row.set_height (Row.minHeight b) b) r in
  let r := foldl measure_step r (Row.elements (base r)) in
  on_base (fun b => Row.set_widthWithConnectedBlocks (Row.width b) b) r.
End WithEnv.
End TopRow.

(** ** BottomRow *)
Module BottomRow.
Record t : Type := mk {
  base : Row.t;
  hasNextConnection : bool;
  connection : option Measurable.t;
  overhangY : Z;
  hasFixedWidth : bool
}.

(** [new Blockly.blockRendering.BottomRow()] *)
Definition new : t :=
  mk (Row.set_type "bottom row" Row.new) false None 0 false.

Definition on_base (f : Row.t -> Row.t) (r : t) : t :=
  mk (f (base r)) (hasNextConnection r) (connection r) (overhangY r)
     (hasFixedWidth r).
Definition set_hasNextConnection (v : bool) (r : t) : t :=
  mk (base r) v (connection r) (overhangY r) (hasFixedWidth r).
Definition set_connection (v : option Measurable.t) (r : t) : t :=
  mk (base r) (hasNextConnection r) v (overhangY r) (hasFixedWidth r).
Definition set_overhangY (v : Z) (r : t) : t :=
  mk (base r) (hasNextConnection r) (connection r) v (hasFixedWidth r).
Definition set_hasFixedWidth (v : bool) (r : t) : t :=
  mk (base r) (hasNextConnection r) (connection r) (overhangY r) v.

Section WithEnv.
Variable env : Env.

(** [block.inputList.length &&
     block.inputList[block.inputList.length - 1].type ==
     Blockly.NEXT_STATEMENT], as a truth value. *)
Definition followsStatement (block : BlockSvg.t) : bool :=
  match last (BlockSvg.inputList block) with
  | Some input => Input.type input =? NEXT_STATEMENT env
  | None => false
  end.

Definition squareCorner (block : BlockSvg.t) : bool :=
  bool_decide (is_Some (BlockSvg.outputConnection block))
  || bool_decide (is_Some (BlockSvg.getNextBlock block)).

(** [BottomRow.prototype.populate].  [hasFixedWidth] holds the truth value
    of [followsStatement && block.getInputsInline()]; in the last [if],
    [hasNextConnection] is [!!block.nextConnection], so the connection is
    there whenever the branch is taken. *)
Definition populate (r : t) (block : BlockSvg.t) : t :=
  let r :=
    set_hasNextConnection
      (bool_decide (is_Some (BlockSvg.nextConnection block))) r in
  let r :=
    set_hasFixedWidth
      (followsStatement block && BlockSvg.getInputsInline block) r in
  let r :=
    if followsStatement block then
      on_base (Row.set_minHeight (LARGE_PADDING env)) r
    else
      on_base (Row.set_minHeight (NOTCH_height env)) r in
  let r :=
    if squareCorner block then on_base (Row.push (SquareCorner env)) r
    else on_base (Row.push (RoundCorner env)) r in
  if hasNextConnection r then
    match BlockSvg.nextConnection block with
    | Some nextConnection =>
        let conn := NextConnection env nextConnection in
        let r := set_connection (Some conn) r in
        on_base (Row.push conn) r
    | None => r
    end
  else r.

(** One iteration of the loop of [BottomRow.prototype.measure]. *)
Definition measure_step (r : t) (elem : Measurable.t) : t :=
  let r :=
    on_base (fun b => Row.set_width (Row.width b + Measurable.width elem) b)
            r in
  if negb (isSpacer env elem) then
    let r :=
      if String.eqb (Measurable.type elem) "next connection" then
        let r :=
          on_base (fun b =>
            Row.set_height (Row.height b + Measurable.height elem) b) r in
        set_overhangY (Measurable.height elem) r
      else r in
    on_base (fun b =>
      Row.set_height (Z.max (Row.height b) (Measurable.height elem)) b) r
  else r.

(** [BottomRow.prototype.measure] *)
Definition measure (r : t) : t :=
  let r := on_base (fun b => Row.set_width (Row.minWidth b) b) r in
  let r := on_base (fun b => Row.set_height (Row.minHeight b) b) r in
  let r := foldl measure_step r (Row.elements (base r)) in
  on_base (fun b => Row.set_widthWithConnectedBlocks (Row.width b) b) r.
End WithEnv.
End BottomRow.

(** ** SpacerRow

    The constructor does not call the constructor of [Row]: a spacer row
    has exactly the six fields it assigns. *)
Module SpacerRow.
Record t : Type := mk {
  type : string;
  width : Z;
  height : Z;
  followsStatement : bool;
  widthWithConnectedBlocks : Z;
  elements : list Measurable.t
}.

(** [new Blockly.blockRendering.SpacerRow(height, width)] *)
Definition new (env : Env) (height width : Z) : t :=
  mk "between-row spacer" width height false 0 [InRowSpacer env width].

(** [SpacerRow.prototype.measure]: an empty body. *)
Definition measure (r : t) : t := r.
End SpacerRow.

(** ** InputRow *)
Module InputRow.
Record t : Type := mk { base : Row.t }.

(** [new Blockly.blockRendering.InputRow()] *)
Definition new : t := mk (Row.set_type "input row" Row.new).

(** The state of the loop of [InputRow.prototype.measure]: the row and the
    local variable [connectedBlockWidths]. *)
Record loopState : Type := mkLoop {
  row : Row.t;
  connectedBlockWidths : Z
}.

Section WithEnv.
Variable env : Env.

Definition measure_step (st : loopState) (elem : Measurable.t)
    : loopState :=
  let r := row st in
  let cbw := connectedBlockWidths st in
  let r := Row.set_width (Row.width r + Measurable.width elem) r in
  let cbw :=
    if Measurable.isInput elem then
      if String.eqb (Measurable.type elem) "statement input" then
        cbw + Measurable.connectedBlockWidth elem
      else if String.eqb (Measurable.type elem) "external value input"
              && negb (Measurable.connectedBlockWidth elem =? 0) then
        cbw + (Measurable.connectedBlockWidth elem
               - Measurable.connectionWidth elem)
      else cbw
    else cbw in
  let r :=
    if negb (isSpacer env elem) then
      Row.set_height (Z.max (Row.height r) (Measurable.height elem)) r
    else r in
  mkLoop r cbw.

(** [InputRow.prototype.measure] *)
Definition measure (r : t) : t :=
  let b := base r in
  let b := Row.set_width (Row.minWidth b) b in
  let b := Row.set_height (Row.minHeight b) b in
  let st := foldl measure_step (mkLoop b 0) (Row.elements b) in
  let b := row st in
  mk (Row.set_widthWithConnectedBlocks
        (Row.width b + connectedBlockWidths st) b).
End WithEnv.
End InputRow.

(** ** Method dispatch

    A row object is an instance of [Row] itself or of one of its four
    subclasses; a method call goes to the most specific definition on the
    prototype chain. *)
Inductive RowObject : Type :=
| BaseRow (r : Row.t)
| ATopRow (r : TopRow.t)
| ABottomRow (r : BottomRow.t)
| ASpacerRow (r : SpacerRow.t)
| AnInputRow (r : InputRow.t).

Definition elementsOf (o : RowObject) : list Measurable.t :=
  match o with
  | BaseRow r => Row.elements r
  | ATopRow r => Row.elements (TopRow.base r)
  | ABottomRow r => Row.elements (BottomRow.base r)
  | ASpacerRow r => SpacerRow.elements r
  | AnInputRow r => Row.elements (InputRow.base r)
  end.

(** [row.measure()] *)
Definition callMeasure (env : Env) (o : RowObject) : Completion RowObject :=
  match o with
  | BaseRow r =>
      match Row.measure r with
      | Normal r' => Normal (BaseRow r')
      | Throw m r' => Throw m (BaseRow r')
      end
  | ATopRow r => Normal (ATopRow (TopRow.measure env r))
  | ABottomRow r => Normal (ABottomRow (BottomRow.measure env r))
  | ASpacerRow r => Normal (ASpacerRow (SpacerRow.measure r))
  | AnInputRow r => Normal (AnInputRow (InputRow.measure env r))
  end.

(** [row.populate(block)]: only [TopRow] and [BottomRow] define it; on the
    other classes the property is [undefined] and the call is a TypeError. *)
Definition callPopulate (env : Env) (o : RowObject) (block : BlockSvg.t)
    : Completion RowObject :=
  match o with
  | ATopRow r => Normal (ATopRow (TopRow.populate env r block))
  | ABottomRow r => Normal (ABottomRow (BottomRow.populate env r block))
  | _ => Throw "TypeError: row.populate is not a function" o
  end.

(** [n] successive calls of [row.measure()]. *)
Fixpoint measureTimes (env : Env) (n : nat) (o : RowObject)
    : Completion RowObject :=
  match n with
  | O => Normal o
  | S n' => andThen (callMeasure env o) (measureTimes env n')
  end.

(** [row.getFirstSpacer()] and [row.getLastSpacer()], inherited from [Row]
    by every class. *)
Definition callGetFirstSpacer (o : RowObject) : option Measurable.t :=
  Row.getFirstSpacer (elementsOf o).
Definition callGetLastSpacer (o : RowObject) : option Measurable.t :=
  Row.getLastSpacer (elementsOf o).

(** ** The quantities the properties speak of *)

(** The sum of the widths of the elements. *)
Definition sumWidths (elems : list Measurable.t) : Z :=
  foldr (fun e acc => Measurable.width e + acc) 0 elems.

(** The maximum of [m] and the heights of the elements that are not
    spacers. *)
Definition maxHeight (env : Env) (m : Z) (elems : list Measurable.t) : Z :=
  foldr Z.max m (Measurable.height <$> filter (fun e => isSpacer env e = false) elems).

(** An element on which [TopRow.measure] adds to the height: a hat that is
    not a spacer. *)
Definition isHatElement (env : Env) (e : Measurable.t) : bool :=
  negb (isSpacer env e) && String.eqb (Measurable.type e) "hat".

(** An element on which [BottomRow.measure] adds to the height: a next
    connection that is not a spacer. *)
Definition isNextConnectionElement (env : Env) (e : Measurable.t) : bool :=
  negb (isSpacer env e) && String.eqb (Measurable.type e) "next connection".

(** The height of a top or bottom row: from left to right, an element that
    is not a spacer raises the height to its own height, after adding its
    height to the height reached so far when it is a stacking element (a hat
    on the top row, a next connection on the bottom row). *)
Fixpoint stackedHeight (env : Env) (stacks : Measurable.t -> bool) (h : Z)
    (elems : list Measurable.t) : Z :=
  match elems with
  | [] => h
  | e :: rest =>
      if isSpacer env e then stackedHeight env stacks h rest
      else if stacks e then
        stackedHeight env stacks
          (Z.max (h + Measurable.height e) (Measurable.height e)) rest
      else stackedHeight env stacks (Z.max h (Measurable.height e)) rest
  end.

(** What an element adds to [widthWithConnectedBlocks] on an input row. *)
Definition connectedWidthOf (e : Measurable.t) : Z :=
  if Measurable.isInput e then
    if String.eqb (Measurable.type e) "statement input" then
      Measurable.connectedBlockWidth e
    else if String.eqb (Measurable.type e) "external value input" then
      if Measurable.connectedBlockWidth e =? 0 then 0
      else Measurable.connectedBlockWidth e - Measurable.connectionWidth e
    else 0
  else 0.

Definition sumConnectedWidths (elems : list Measurable.t) : Z :=
  foldr (fun e acc => connectedWidthOf e + acc) 0 elems.

(** ** An instance of the parameters, to run the model on concrete rows:
    spacers are recognised by their type. *)
Definition exampleMeasurable (type : string) (width height : Z)
    : Measurable.t :=
  Measurable.mk type false width height 0 0 0.

Definition exampleEnv : Env :=
  mkEnv
    (fun e => String.eqb (Measurable.type e) "in-row spacer"
              || String.eqb (Measurable.type e) "between-row spacer")
    false 3 15 10 4
    (exampleMeasurable "square corner" 0 0)
    (exampleMeasurable "round corner" 8 4)
    (Measurable.mk "hat" false 100 15 15 0 0)
    (fun _ => exampleMeasurable "previous connection" 15 4)
    (fun _ => exampleMeasurable "next connection" 15 4)
    (fun w => exampleMeasurable "in-row spacer" w 0).

(** The [startY] left by the loop of [TopRow.measure]: that of the last hat
    element, or the initial one when there is none. *)
Definition lastHatStartY (env : Env) (s : Z) (elems : list Measurable.t) : Z :=
  foldl (fun s e => if isHatElement env e then Measurable.startY e else s)
        s elems.

(** The [overhangY] left by the loop of [BottomRow.measure]. *)
Definition lastOverhangY (env : Env) (s : Z) (elems : list Measurable.t) : Z :=
  foldl (fun s e =>
           if isNextConnectionElement env e then Measurable.height e else s)
        s elems.

Definition isHatType (e : Measurable.t) : bool :=
  String.eqb (Measurable.type e) "hat".
Definition isNextConnectionType (e : Measurable.t) : bool :=
  String.eqb (Measurable.type e) "next connection".

(** An element all of whose numeric fields are non-negative. *)
Definition nonNegativeElement (e : Measurable.t) : Prop :=
  0 <= Measurable.width e /\ 0 <= Measurable.height e /\
  0 <= Measurable.connectedBlockWidth e /\
  0 <= Measurable.connectionWidth e /\ 0 <= Measurable.startY e.

(** The block has an output connection, has a hat, or is the next block of
    its previous block. *)
Definition topIsSquare (env : Env) (block : BlockSvg.t) : Prop :=
  is_Some (BlockSvg.outputConnection block) \/
  TopRow.hasHat env block = true \/
  exists prevBlock,
    BlockSvg.getPreviousBlock block = Some prevBlock /\
    BlockSvg.neighbourNextBlock prevBlock = Some (BlockSvg.id block).

(** The block has an output connection or a next block. *)
Definition bottomIsSquare (block : BlockSvg.t) : Prop :=
  is_Some (BlockSvg.outputConnection block) \/
  is_Some (BlockSvg.getNextBlock block).

(** ** getLastInput

    [Row.prototype.getLastInput] also calls [Measurable.prototype.isField]
    and reads the property [parentInput] of a field; both come from other
    files and are parameters. *)
Record FieldEnv : Type := mkFieldEnv {
  isField : Measurable.t -> bool;
  parentInput : Measurable.t -> option Measurable.t
}.

(** The loop of [Row.prototype.getLastInput]; [n] is [i + 1].  The result is
    the value returned ([None] for null), or the message of the TypeError
    that a method call on [elements[i] = undefined] would raise. *)
Fixpoint getLastInput_loop (env : Env) (fenv : FieldEnv)
    (elements : list Measurable.t) (n : nat)
    : option Measurable.t + string :=
  match n with
  | O => inl None
  | S i =>
      match elements !! i with
      | None => inr "TypeError: Cannot read properties of undefined"
      | Some elem =>
          if isSpacer env elem then getLastInput_loop env fenv elements i
          else if Measurable.isInput elem then inl (Some elem)
          else if isField fenv elem then inl (parentInput fenv elem)
          else getLastInput_loop env fenv elements i
      end
  end.

(** [Row.prototype.getLastInput] *)
Definition getLastInput (env : Env) (fenv : FieldEnv)
    (elements : list Measurable.t) : option Measurable.t + string :=
  getLastInput_loop env fenv elements (length elements).

(** [row.getLastInput()], inherited from [Row] by every class. *)
Definition callGetLastInput (env : Env) (fenv : FieldEnv) (o : RowObject)
    : option Measurable.t + string :=
  getLastInput env fenv (elementsOf o).

(** An element at which the loop of [getLastInput] returns: not a spacer,
    and an input or a field. *)
Definition stopsLastInput (env : Env) (fenv : FieldEnv) (e : Measurable.t)
    : bool :=
  negb (isSpacer env e) && (Measurable.isInput e || isField fenv e).

(** The last input of a row, read off the list: the last element that is
    not a spacer and is an input or a field decides; an input is returned
    itself, a field gives its parent input. *)
Definition lastInputSearch (env : Env) (fenv : FieldEnv)
    (elems : list Measurable.t) : option Measurable.t :=
  match List.find (stopsLastInput env fenv) (reverse elems) with
  | Some e => if Measurable.isInput e then Some e else parentInput fenv e
  | None => None
  end.

(** The elements of a row that are not spacers. *)
Definition withoutSpacers (env : Env) (elems : list Measurable.t)
    : list Measurable.t :=
  filter (fun e => isSpacer env e = false) elems.

(** An input whose connected block is at least as wide as the connection it
    plugs into. *)
Definition connectionWithinBlock (e : Measurable.t) : Prop :=
  Measurable.isInput e = true ->
  0 <= Measurable.connectedBlockWidth e /\
  (Measurable.connectedBlockWidth e <> 0 ->
   Measurable.connectionWidth e <= Measurable.connectedBlockWidth e).

(** Fields are recognised by their type and all belong to one inline input,
    to run [getLastInput] on concrete rows. *)
Definition exampleFieldEnv : FieldEnv :=
  mkFieldEnv
    (fun e => String.eqb (Measurable.type e) "field")
    (fun e => if String.eqb (Measurable.type e) "field"
              then Some (Measurable.mk "inline value input" true 30 20 0 0 0)
              else None).

(** ** Sums in the order of the code *)

(** [m] plus the widths of the elements, added one after the other from
    left to right, as [this.width += elem.width] does. *)
Definition runningWidth (m : Z) (elems : list Measurable.t) : Z :=
  foldl (fun acc e => acc + Measurable.width e) m elems.

(** An element at which [InputRow.measure] adds to [connectedBlockWidths]: a
    statement input, or an external value input with a connected block. *)
Definition addsConnectedWidth (e : Measurable.t) : bool :=
  Measurable.isInput e
  && (String.eqb (Measurable.type e) "statement input"
      || (String.eqb (Measurable.type e) "external value input"
          && negb (Measurable.connectedBlockWidth e =? 0))).

(** The local variable [connectedBlockWidths] of [InputRow.measure] after
    the loop: from 0, a statement input adds its [connectedBlockWidth] and an
    external value input with a connected block adds
    [connectedBlockWidth - connectionWidth], from left to right; the other
    elements add nothing. *)
Definition connectedBlockWidthsOf (elems : list Measurable.t) : Z :=
  foldl (fun acc e =>
           if addsConnectedWidth e then
             if String.eqb (Measurable.type e) "statement input" then
               acc + Measurable.connectedBlockWidth e
             else acc + (Measurable.connectedBlockWidth e
                         - Measurable.connectionWidth e)
           else acc)
        0 elems.

(** An external value input with a connected block whose connection is not
    wider than the connected block. *)
Definition connectionNotWider (e : Measurable.t) : Prop :=
  Measurable.isInput e = true ->
  Measurable.type e = "external value input" ->
  Measurable.connectedBlockWidth e <> 0 ->
  Measurable.connectionWidth e <= Measurable.connectedBlockWidth e.

(** ** Execution with array reads and guards

    [populate] and [measure] once more, this time with every step that can
    raise a TypeError written out: the read of a property of [elements[e]]
    or [inputList[i]], which is [undefined] out of range, the call of a
    method of [prevBlock], which can be null, and the call of the property
    [elem.isSpacer].  The loop condition is evaluated on every iteration, on
    the row as it is then. *)

(** [for (var e = 0; e < elements.length; e++) { var elem = elements[e];
    body }] on a state [st] that holds the array.  [None]: the fuel ran out
    before the condition became false. *)
Fixpoint forElements {St : Type} (elements : St -> list Measurable.t)
    (body : St -> Measurable.t -> Completion St) (fuel e : nat) (st : St)
    : option (Completion St) :=
  match fuel with
  | O => None
  | S fuel' =>
      if (e <? length (elements st))%nat then
        match elementAt (elements st) e with
        | JsObject elem =>
            match body st elem with
            | Normal st' => forElements elements body fuel' (S e) st'
            | Throw m st' => Some (Throw m st')
            end
        | _ =>
            Some (Throw "TypeError: Cannot read properties of undefined" st)
        end
      else Some (Normal st)
  end.

(** [elem.isSpacer()]: a call of the value of the property [elem.isSpacer],
    a TypeError when that value is not a function. *)
Definition callIsSpacer (env : Env) (elem : Measurable.t) : bool + string :=
  match isSpacer_property elem with
  | JsFunction _ => inl (isSpacer env elem)
  | _ => inr "TypeError: elem.isSpacer is not a function"
  end.

(** The body of the loop of [TopRow.prototype.measure]; the call of
    [isSpacer] comes after the update of the width. *)
Definition TopRow_measure_body (env : Env) (r : TopRow.t)
    (elem : Measurable.t) : Completion TopRow.t :=
  match callIsSpacer env elem with
  | inl _ => Normal (TopRow.measure_step env r elem)
  | inr m =>
      Throw m
        (TopRow.on_base
           (fun b => Row.set_width (Row.width b + Measurable.width elem) b) r)
  end.

(** [TopRow.prototype.measure], run with [fuel] evaluations of the loop
    condition at most. *)
Definition TopRow_measure_run (env : Env) (fuel : nat) (r : TopRow.t)
    : option (Completion TopRow.t) :=
  let r := TopRow.on_base (fun b => Row.set_width (Row.minWidth b) b) r in
  let r := TopRow.on_base (fun b => Row.set_height (Row.minHeight b) b) r in
  match forElements (fun r => Row.elements (TopRow.base r))
                    (TopRow_measure_body env) fuel 0 r with
  | Some (Normal r) =>
      Some (Normal
              (TopRow.on_base
                 (fun b => Row.set_widthWithConnectedBlocks (Row.width b) b)
                 r))
  | other => other
  end.

Definition BottomRow_measure_body (env : Env) (r : BottomRow.t)
    (elem : Measurable.t) : Completion BottomRow.t :=
  match callIsSpacer env elem with
  | inl _ => Normal (BottomRow.measure_step env r elem)
  | inr m =>
      Throw m
        (BottomRow.on_base
           (fun b => Row.set_width (Row.width b + Measurable.width elem) b) r)
  end.

(** [BottomRow.prototype.measure], run with [fuel]. *)
Definition BottomRow_measure_run (env : Env) (fuel : nat) (r : BottomRow.t)
    : option (Completion BottomRow.t) :=
  let r := BottomRow.on_base (fun b => Row.set_width (Row.minWidth b) b) r in
  let r :=
    BottomRow.on_base (fun b => Row.set_height (Row.minHeight b) b) r in
  match forElements (fun r => Row.elements (BottomRow.base r))
                    (BottomRow_measure_body env) fuel 0 r with
  | Some (Normal r) =>
      Some (Normal
              (BottomRow.on_base
                 (fun b => Row.set_widthWithConnectedBlocks (Row.width b) b)
                 r))
  | other => other
  end.

(** The body of the loop of [InputRow.prototype.measure]; the call of
    [isSpacer] comes last, after the updates of the width and of
    [connectedBlockWidths]. *)
Definition InputRow_measure_body (env : Env) (st : InputRow.loopState)
    (elem : Measurable.t) : Completion InputRow.loopState :=
  match callIsSpacer env elem with
  | inl _ => Normal (InputRow.measure_step env st elem)
  | inr m =>
      Throw m
        (InputRow.mkLoop
           (Row.set_width
              (Row.width (InputRow.row st) + Measurable.width elem)
              (InputRow.row st))
           (InputRow.connectedBlockWidths
              (InputRow.measure_step env st elem)))
  end.

(** [InputRow.prototype.measure], run with [fuel]. *)
Definition InputRow_measure_run (env : Env) (fuel : nat) (r : InputRow.t)
    : option (Completion InputRow.t) :=
  let b := InputRow.base r in
  let b := Row.set_width (Row.minWidth b) b in
  let b := Row.set_height (Row.minHeight b) b in
  match forElements (fun st => Row.elements (InputRow.row st))
                    (InputRow_measure_body env) fuel 0
                    (InputRow.mkLoop b 0) with
  | Some (Normal st) =>
      let b := InputRow.row st in
      Some (Normal
              (InputRow.mk
                 (Row.set_widthWithConnectedBlocks
                    (Row.width b + InputRow.connectedBlockWidths st) b)))
  | Some (Throw m st) => Some (Throw m (InputRow.mk (InputRow.row st)))
  | None => None
  end.

(** [block.inputList[i].type]: a TypeError when [inputList[i]] is
    [undefined]. *)
Definition inputTypeAt (inputList : list Input.t) (i : nat) : Z + string :=
  match inputList !! i with
  | Some input => inl (Input.type input)
  | None => inr "TypeError: Cannot read properties of undefined"
  end.

(** [block.inputList.length &&
     block.inputList[0].type == Blockly.NEXT_STATEMENT]: the right operand is
    evaluated only when the length is not 0. *)
Definition precedesStatement_run (env : Env) (block : BlockSvg.t)
    : bool + string :=
  if (length (BlockSvg.inputList block) =? 0)%nat then inl false
  else
    match inputTypeAt (BlockSvg.inputList block) 0 with
    | inl ty => inl (ty =? NEXT_STATEMENT env)
    | inr m => inr m
    end.

(** [block.inputList.length &&
     block.inputList[block.inputList.length - 1].type ==
     Blockly.NEXT_STATEMENT] *)
Definition followsStatement_run (env : Env) (block : BlockSvg.t)
    : bool + string :=
  if (length (BlockSvg.inputList block) =? 0)%nat then inl false
  else
    match inputTypeAt (BlockSvg.inputList block)
                      (length (BlockSvg.inputList block) - 1) with
    | inl ty => inl (ty =? NEXT_STATEMENT env)
    | inr m => inr m
    end.

(** [prevBlock.getNextBlock()]: a TypeError when [prevBlock] is null. *)
Definition callGetNextBlock (prevBlock : option BlockSvg.neighbour)
    : option BlockId + string :=
  match prevBlock with
  | Some p => inl (BlockSvg.neighbourNextBlock p)
  | None => inr "TypeError: Cannot read properties of null"
  end.

(** [prevBlock && prevBlock.getNextBlock() == block]: the call is evaluated
    only when [prevBlock] is truthy. *)
Definition previousLeadsHere_run (block : BlockSvg.t) : bool + string :=
  let prevBlock := BlockSvg.getPreviousBlock block in
  if bool_decide (is_Some prevBlock) then
    match callGetNextBlock prevBlock with
    | inl (Some next) => inl (Nat.eqb next (BlockSvg.id block))
    | inl None => inl false
    | inr m => inr m
    end
  else inl false.

(** [!!block.outputConnection || hasHat ||
     (prevBlock && prevBlock.getNextBlock() == block)]: the last operand is
    evaluated only when the first two are falsy. *)
Definition squareCorner_run (env : Env) (block : BlockSvg.t)
    : bool + string :=
  if bool_decide (is_Some (BlockSvg.outputConnection block))
     || TopRow.hasHat env block
  then inl true
  else previousLeadsHere_run block.

(** [TopRow.prototype.populate], statement by statement; an exception
    leaves the row as the statements before it made it. *)
Definition TopRow_populate_run (env : Env) (r : TopRow.t)
    (block : BlockSvg.t) : Completion TopRow.t :=
  match squareCorner_run env block with
  | inr m => Throw m r
  | inl square =>
      let r :=
        if square then TopRow.on_base (Row.push (SquareCorner env)) r
        else TopRow.on_base (Row.push (RoundCorner env)) r in
      let r :=
        if TopRow.hasHat env block then
          let hat := Hat env in
          let r := TopRow.on_base (Row.push hat) r in
          TopRow.set_startY (Measurable.startY hat) r
        else
          match BlockSvg.previousConnection block with
          | Some previousConnection =>
              let r := TopRow.set_hasPreviousConnection true r in
              let conn := PreviousConnection env previousConnection in
              let r := TopRow.set_connection (Some conn) r in
              TopRow.on_base (Row.push conn) r
          | None => r
          end in
      match precedesStatement_run env block with
      | inr m => Throw m r
      | inl precedes =>
          if precedes && negb (BlockSvg.isCollapsed block) then
            Normal (TopRow.on_base (Row.set_minHeight (LARGE_PADDING env)) r)
          else
            Normal (TopRow.on_base (Row.set_minHeight (MEDIUM_PADDING env)) r)
      end
  end.

(** [BottomRow.prototype.populate], statement by statement. *)
Definition BottomRow_populate_run (env : Env) (r : BottomRow.t)
    (block : BlockSvg.t) : Completion BottomRow.t :=
  let r :=
    BottomRow.set_hasNextConnection
      (bool_decide (is_Some (BlockSvg.nextConnection block))) r in
  match followsStatement_run env block with
  | inr m => Throw m r
  | inl follows =>
      let r :=
        BottomRow.set_hasFixedWidth
          (follows && BlockSvg.getInputsInline block) r in
      let r :=
        if follows then
          BottomRow.on_base (Row.set_minHeight (LARGE_PADDING env)) r
        else
          BottomRow.on_base (Row.set_minHeight (NOTCH_height env)) r in
      let r :=
        if BottomRow.squareCorner block then
          BottomRow.on_base (Row.push (SquareCorner env)) r
        else BottomRow.on_base (Row.push (RoundCorner env)) r in
      if BottomRow.hasNextConnection r then
        match BlockSvg.nextConnection block with
        | Some nextConnection =>
            let conn := NextConnection env nextConnection in
            let r := BottomRow.set_connection (Some conn) r in
            Normal (BottomRow.on_base (Row.push conn) r)
        | None => Normal r
        end
      else Normal r
  end.

(** * Properties *)

(** ** The loops, in closed form *)

Lemma TopRow_loop (env : Env) (elems : list Measurable.t) :
  forall r : TopRow.t,
    foldl (TopRow.measure_step env) r elems =
    TopRow.mk
      (Row.set_height
         (stackedHeight env isHatType (Row.height (TopRow.base r)) elems)
         (Row.set_width (Row.width (TopRow.base r) + sumWidths elems)
                        (TopRow.base r)))
      (lastHatStartY env (TopRow.startY r) elems)
      (TopRow.hasPreviousConnection r) (TopRow.connection r).
Proof.
  induction elems as [|e rest IH]; intros [[ty els h w mh mw wc y x f1 f2 f3 f4 f5] sy hp c].
  - cbn. rewrite Z.add_0_r. reflexivity.
  - change (foldl (TopRow.measure_step env) ?r0 (e :: rest))
      with (foldl (TopRow.measure_step env) (TopRow.measure_step env r0 e) rest).
    rewrite IH. clear IH.
    unfold TopRow.measure_step, isHatType, lastHatStartY, isHatElement.
    cbn [foldl stackedHeight sumWidths foldr].
    destruct (isSpacer env e); cbn;
      [|destruct (String.eqb (Measurable.type e) "hat"); cbn];
      rewrite Z.add_assoc; reflexivity.
Qed.

Lemma BottomRow_loop (env : Env) (elems : list Measurable.t) :
  forall r : BottomRow.t,
    foldl (BottomRow.measure_step env) r elems =
    BottomRow.mk
      (Row.set_height
         (stackedHeight env isNextConnectionType
                        (Row.height (BottomRow.base r)) elems)
         (Row.set_width (Row.width (BottomRow.base r) + sumWidths elems)
                        (BottomRow.base r)))
      (BottomRow.hasNextConnection r) (BottomRow.connection r)
      (lastOverhangY env (BottomRow.overhangY r) elems)
      (BottomRow.hasFixedWidth r).
Proof.
  induction elems as [|e rest IH];
    intros [[ty els h w mh mw wc y x f1 f2 f3 f4 f5] hn c oy fw].
  - cbn. rewrite Z.add_0_r. reflexivity.
  - change (foldl (BottomRow.measure_step env) ?r0 (e :: rest))
      with (foldl (BottomRow.measure_step env)
                  (BottomRow.measure_step env r0 e) rest).
    rewrite IH. clear IH.
    unfold BottomRow.measure_step, isNextConnectionType, lastOverhangY,
      isNextConnectionElement.
    cbn [foldl stackedHeight sumWidths foldr].
    destruct (isSpacer env e); cbn;
      [|destruct (String.eqb (Measurable.type e) "next connection"); cbn];
      rewrite Z.add_assoc; reflexivity.
Qed.

Lemma connectedWidthOf_step (cbw : Z) (e : Measurable.t) :
  (if Measurable.isInput e then
     if String.eqb (Measurable.type e) "statement input" then
       cbw + Measurable.connectedBlockWidth e
     else if String.eqb (Measurable.type e) "external value input"
             && negb (Measurable.connectedBlockWidth e =? 0) then
       cbw + (Measurable.connectedBlockWidth e - Measurable.connectionWidth e)
     else cbw
   else cbw) = cbw + connectedWidthOf e.
Proof.
  unfold connectedWidthOf.
  destruct (Measurable.isInput e); [|lia].
  destruct (String.eqb (Measurable.type e) "statement input"); [lia|].
  destruct (String.eqb (Measurable.type e) "external value input"); cbn; [|lia].
  destruct (Measurable.connectedBlockWidth e =? 0); cbn; lia.
Qed.

Lemma InputRow_loop (env : Env) (elems : list Measurable.t) :
  forall st : InputRow.loopState,
    foldl (InputRow.measure_step env) st elems =
    InputRow.mkLoop
      (Row.set_height
         (stackedHeight env (fun _ => false)
                        (Row.height (InputRow.row st)) elems)
         (Row.set_width (Row.width (InputRow.row st) + sumWidths elems)
                        (InputRow.row st)))
      (InputRow.connectedBlockWidths st + sumConnectedWidths elems).
Proof.
  induction elems as [|e rest IH];
    intros [[ty els h w mh mw wc y x f1 f2 f3 f4 f5] cbw].
  - cbn. rewrite !Z.add_0_r. reflexivity.
  - change (foldl (InputRow.measure_step env) ?r0 (e :: rest))
      with (foldl (InputRow.measure_step env)
                  (InputRow.measure_step env r0 e) rest).
    rewrite IH. clear IH.
    unfold InputRow.measure_step.
    cbn [InputRow.row InputRow.connectedBlockWidths].
    rewrite connectedWidthOf_step.
    cbn [stackedHeight sumWidths sumConnectedWidths foldr].
    destruct (isSpacer env e); cbn; rewrite !Z.add_assoc; reflexivity.
Qed.

(** ** Heights *)

Lemma maxHeight_cons (env : Env) (m : Z) (e : Measurable.t)
    (rest : list Measurable.t) :
  maxHeight env m (e :: rest) =
  if isSpacer env e then maxHeight env m rest
  else Z.max (Measurable.height e) (maxHeight env m rest).
Proof.
  unfold maxHeight. rewrite filter_cons.
  destruct (isSpacer env e); case_decide; try congruence; reflexivity.
Qed.

Lemma maxHeight_raise (env : Env) (elems : list Measurable.t) :
  forall m x : Z,
    maxHeight env (Z.max m x) elems = Z.max x (maxHeight env m elems).
Proof.
  induction elems as [|e rest IH]; intros m x.
  - cbn. lia.
  - rewrite !maxHeight_cons. destruct (isSpacer env e); rewrite IH; lia.
Qed.

(** Without a stacking element the running maximum of the loop is the
    maximum of the heights. *)
Lemma stackedHeight_plain (env : Env) (stacks : Measurable.t -> bool)
    (elems : list Measurable.t) :
  forall h : Z,
    Forall (fun e => negb (isSpacer env e) && stacks e = false) elems ->
    stackedHeight env stacks h elems = maxHeight env h elems.
Proof.
  induction elems as [|e rest IH]; intros h Hall.
  - reflexivity.
  - inversion Hall as [|? ? He Hrest]; subst.
    rewrite maxHeight_cons. cbn [stackedHeight].
    destruct (isSpacer env e); [auto|].
    cbn in He. rewrite He, IH by assumption.
    rewrite maxHeight_raise. reflexivity.
Qed.

Lemma stackedHeight_lower_bound (env : Env) (stacks : Measurable.t -> bool)
    (elems : list Measurable.t) :
  forall h : Z,
    Forall (fun e => 0 <= Measurable.height e) elems ->
    h <= stackedHeight env stacks h elems.
Proof.
  induction elems as [|e rest IH]; intros h Hall.
  - cbn. lia.
  - inversion Hall as [|? ? He Hrest]; subst. cbn [stackedHeight].
    destruct (isSpacer env e); [auto|].
    destruct (stacks e).
    + etransitivity; [|apply IH; assumption]. lia.
    + etransitivity; [|apply IH; assumption]. lia.
Qed.

(** ** What [measure] computes *)

Lemma TopRow_measure_closed (env : Env) (r : TopRow.t) :
  TopRow.measure env r =
  let b := TopRow.base r in
  let w := Row.minWidth b + sumWidths (Row.elements b) in
  TopRow.mk
    (Row.mk (Row.type b) (Row.elements b)
       (stackedHeight env isHatType (Row.minHeight b) (Row.elements b))
       w (Row.minHeight b) (Row.minWidth b) w (Row.yPos b) (Row.xPos b)
       (Row.hasExternalInput b) (Row.hasStatement b) (Row.hasInlineInput b)
       (Row.hasDummyInput b) (Row.hasJaggedEdge b))
    (lastHatStartY env (TopRow.startY r) (Row.elements b))
    (TopRow.hasPreviousConnection r) (TopRow.connection r).
Proof.
  unfold TopRow.measure. rewrite TopRow_loop.
  destruct r as [[ty els h w mh mw wc y x f1 f2 f3 f4 f5] sy hp c].
  reflexivity.
Qed.

Lemma BottomRow_measure_closed (env : Env) (r : BottomRow.t) :
  BottomRow.measure env r =
  let b := BottomRow.base r in
  let w := Row.minWidth b + sumWidths (Row.elements b) in
  BottomRow.mk
    (Row.mk (Row.type b) (Row.elements b)
       (stackedHeight env isNextConnectionType (Row.minHeight b)
                      (Row.elements b))
       w (Row.minHeight b) (Row.minWidth b) w (Row.yPos b) (Row.xPos b)
       (Row.hasExternalInput b) (Row.hasStatement b) (Row.hasInlineInput b)
       (Row.hasDummyInput b) (Row.hasJaggedEdge b))
    (BottomRow.hasNextConnection r) (BottomRow.connection r)
    (lastOverhangY env (BottomRow.overhangY r) (Row.elements b))
    (BottomRow.hasFixedWidth r).
Proof.
  unfold BottomRow.measure. rewrite BottomRow_loop.
  destruct r as [[ty els h w mh mw wc y x f1 f2 f3 f4 f5] hn c oy fw].
  reflexivity.
Qed.

Lemma InputRow_measure_closed (env : Env) (r : InputRow.t) :
  InputRow.measure env r =
  let b := InputRow.base r in
  let w := Row.minWidth b + sumWidths (Row.elements b) in
  InputRow.mk
    (Row.mk (Row.type b) (Row.elements b)
       (maxHeight env (Row.minHeight b) (Row.elements b))
       w (Row.minHeight b) (Row.minWidth b)
       (w + sumConnectedWidths (Row.elements b)) (Row.yPos b) (Row.xPos b)
       (Row.hasExternalInput b) (Row.hasStatement b) (Row.hasInlineInput b)
       (Row.hasDummyInput b) (Row.hasJaggedEdge b)).
Proof.
  unfold InputRow.measure.
  destruct r as [[ty els h w mh mw wc y x f1 f2 f3 f4 f5]].
  cbn [InputRow.base Row.set_width Row.set_height Row.elements Row.minWidth
       Row.minHeight Row.type Row.height Row.width].
  rewrite InputRow_loop. cbn.
  rewrite stackedHeight_plain.
  - rewrite Z.add_0_l. reflexivity.
  - apply Forall_forall. intros e _. apply andb_false_r.
Qed.

(** C1, as stated, fails on a top row that holds a hat: with [minHeight = 3]
    and one hat of height 5 the loop first adds the hat's height to the
    height (3 + 5) and then takes the maximum with it, so the height is 8,
    while the maximum of [minHeight] and the heights of the elements that are
    not spacers is 5. *)
Lemma C1_counterexample :
  let hat := Measurable.mk "hat" false 2 5 5 0 0 in
  let r :=
    TopRow.mk
      (Row.mk "top row" [hat] 0 0 3 0 0 0 0 false false false false false)
      0 false None in
  isSpacer exampleEnv hat = false /\
  Row.height (TopRow.base (TopRow.measure exampleEnv r)) = 8 /\
  maxHeight exampleEnv (Row.minHeight (TopRow.base r))
            (Row.elements (TopRow.base r)) = 5 /\
  Row.height (TopRow.base (TopRow.measure exampleEnv r)) <>
  maxHeight exampleEnv (Row.minHeight (TopRow.base r))
            (Row.elements (TopRow.base r)).
Proof. repeat split. discriminate. Qed.

Lemma runningWidth_sum (elems : list Measurable.t) :
  forall m : Z, runningWidth m elems = m + sumWidths elems.
Proof.
  unfold runningWidth.
  induction elems as [|e rest IH]; intros m; cbn [foldl sumWidths foldr].
  - lia.
  - rewrite IH. fold (sumWidths rest). lia.
Qed.

(** C1 (amended): [measure] sets the width of a top, bottom or input row to
    its [minWidth] plus the widths of all its elements, added one after the
    other from left to right.  It sets the height of an input row to the
    maximum of its [minHeight] and the heights of its elements that are not
    spacers; so it does for a top row without a hat element and a bottom row
    without a next connection element, while in general such an element (not
    a spacer) first adds its height to the height reached so far, before the
    maximum is taken ([stackedHeight]).  On a spacer row [measure] leaves the
    width and the height as they are. *)
Theorem measure_width_and_height (env : Env) :
  (forall r : TopRow.t,
     let b := TopRow.base r in
     let b' := TopRow.base (TopRow.measure env r) in
     Row.width b' = runningWidth (Row.minWidth b) (Row.elements b) /\
     Row.height b' =
       stackedHeight env isHatType (Row.minHeight b) (Row.elements b) /\
     (Forall (fun e => isHatElement env e = false) (Row.elements b) ->
      Row.height b' = maxHeight env (Row.minHeight b) (Row.elements b))) /\
  (forall r : BottomRow.t,
     let b := BottomRow.base r in
     let b' := BottomRow.base (BottomRow.measure env r) in
     Row.width b' = runningWidth (Row.minWidth b) (Row.elements b) /\
     Row.height b' =
       stackedHeight env isNextConnectionType (Row.minHeight b)
                     (Row.elements b) /\
     (Forall (fun e => isNextConnectionElement env e = false)
             (Row.elements b) ->
      Row.height b' = maxHeight env (Row.minHeight b) (Row.elements b))) /\
  (forall r : InputRow.t,
     let b := InputRow.base r in
     let b' := InputRow.base (InputRow.measure env r) in
     Row.width b' = runningWidth (Row.minWidth b) (Row.elements b) /\
     Row.height b' = maxHeight env (Row.minHeight b) (Row.elements b)) /\
  (forall r : SpacerRow.t,
     SpacerRow.width (SpacerRow.measure r) = SpacerRow.width r /\
     SpacerRow.height (SpacerRow.measure r) = SpacerRow.height r).
Proof.
  repeat split.
  - rewrite TopRow_measure_closed, runningWidth_sum. reflexivity.
  - rewrite TopRow_measure_closed. reflexivity.
  - intros Hall. rewrite TopRow_measure_closed. cbn.
    apply stackedHeight_plain. exact Hall.
  - rewrite BottomRow_measure_closed, runningWidth_sum. reflexivity.
  - rewrite BottomRow_measure_closed. reflexivity.
  - intros Hall. rewrite BottomRow_measure_closed. cbn.
    apply stackedHeight_plain. exact Hall.
  - rewrite InputRow_measure_closed, runningWidth_sum. reflexivity.
  - rewrite InputRow_measure_closed. reflexivity.
Qed.

Lemma measure_width_and_height_witness :
  let corner := exampleMeasurable "round corner" 8 4 in
  let conn := exampleMeasurable "previous connection" 15 12 in
  let r :=
    TopRow.mk
      (Row.mk "top row" [corner; conn] 0 0 10 0 0 0 0
              false false false false false)
      0 true (Some conn) in
  Forall (fun e => isHatElement exampleEnv e = false)
         (Row.elements (TopRow.base r)) /\
  Row.height (TopRow.base (TopRow.measure exampleEnv r)) =
  maxHeight exampleEnv (Row.minHeight (TopRow.base r))
            (Row.elements (TopRow.base r)).
Proof.
  intros corner conn r.
  assert (Hall : Forall (fun e => isHatElement exampleEnv e = false)
                        (Row.elements (TopRow.base r)))
    by (repeat constructor).
  split; [exact Hall|].
  destruct (measure_width_and_height exampleEnv) as [Htop _].
  destruct (Htop r) as (_ & _ & Hmax).
  exact (Hmax Hall).
Defined.

(** ** Signs *)

Lemma sumWidths_nonneg (elems : list Measurable.t) :
  Forall nonNegativeElement elems -> 0 <= sumWidths elems.
Proof.
  induction 1 as [|e rest He _ IH]; cbn; [lia|].
  destruct He as (Hw & _). fold (sumWidths rest). lia.
Qed.

Lemma heights_nonneg (elems : list Measurable.t) :
  Forall nonNegativeElement elems ->
  Forall (fun e => 0 <= Measurable.height e) elems.
Proof.
  intros Hall. eapply Forall_impl; [exact Hall|].
  intros e (_ & Hh & _). exact Hh.
Qed.

Lemma lastHatStartY_nonneg (env : Env) (elems : list Measurable.t) :
  forall s : Z,
    0 <= s -> Forall nonNegativeElement elems ->
    0 <= lastHatStartY env s elems.
Proof.
  unfold lastHatStartY.
  induction elems as [|e rest IH]; intros s Hs Hall; [exact Hs|].
  inversion Hall as [|? ? He Hrest]; subst. cbn [foldl].
  apply IH; [|assumption].
  destruct (isHatElement env e); [|exact Hs].
  destruct He as (_ & _ & _ & _ & Hy). exact Hy.
Qed.

Lemma lastOverhangY_nonneg (env : Env) (elems : list Measurable.t) :
  forall s : Z,
    0 <= s -> Forall nonNegativeElement elems ->
    0 <= lastOverhangY env s elems.
Proof.
  unfold lastOverhangY.
  induction elems as [|e rest IH]; intros s Hs Hall; [exact Hs|].
  inversion Hall as [|? ? He Hrest]; subst. cbn [foldl].
  apply IH; [|assumption].
  destruct (isNextConnectionElement env e); [|exact Hs].
  destruct He as (_ & Hh & _). exact Hh.
Qed.

Lemma connectedWidthOf_nonneg_external (e : Measurable.t) :
  nonNegativeElement e -> connectionNotWider e -> 0 <= connectedWidthOf e.
Proof.
  intros (_ & _ & Hc & _) Hfit. unfold connectedWidthOf, connectionNotWider in *.
  destruct (Measurable.isInput e); [|lia].
  destruct (String.eqb (Measurable.type e) "statement input"); [lia|].
  destruct (String.eqb_spec (Measurable.type e) "external value input")
    as [Hty|_]; [|lia].
  destruct (Z.eqb_spec (Measurable.connectedBlockWidth e) 0) as [|Hnz]; [lia|].
  specialize (Hfit eq_refl Hty Hnz). lia.
Qed.

Lemma sumConnectedWidths_nonneg_external (elems : list Measurable.t) :
  Forall nonNegativeElement elems -> Forall connectionNotWider elems ->
  0 <= sumConnectedWidths elems.
Proof.
  induction 1 as [|e rest He _ IH]; intros Hfit; cbn; [lia|].
  inversion Hfit as [|? ? Hfe Hfrest]; subst.
  fold (sumConnectedWidths rest).
  pose proof (connectedWidthOf_nonneg_external e He Hfe).
  specialize (IH Hfrest). lia.
Qed.

Lemma maxHeight_lower_bound (env : Env) (elems : list Measurable.t) (m : Z) :
  m <= maxHeight env m elems.
Proof.
  induction elems as [|e rest IH]; [cbn; lia|].
  rewrite maxHeight_cons. destruct (isSpacer env e); lia.
Qed.

(** C2, as stated, fails on an input row: an external value input of width
    10 with [connectedBlockWidth = 5] and [connectionWidth = 30] has only
    non-negative fields, and [measure] leaves
    [widthWithConnectedBlocks = 0 + 10 + (5 - 30) = -15]. *)
Lemma C2_counterexample :
  let input := Measurable.mk "external value input" true 10 10 0 5 30 in
  let r :=
    InputRow.mk
      (Row.mk "input row" [input] 0 0 0 0 0 0 0
              false false false false false) in
  0 <= Row.minWidth (InputRow.base r) /\
  0 <= Row.minHeight (InputRow.base r) /\
  Forall nonNegativeElement (Row.elements (InputRow.base r)) /\
  Row.widthWithConnectedBlocks (InputRow.base (InputRow.measure exampleEnv r))
    = -15.
Proof.
  cbn. repeat split; try lia.
  repeat constructor; cbn; lia.
Qed.

(** C2 (amended): on a row whose [minWidth] and [minHeight] are non-negative
    and all of whose elements have non-negative width, height,
    connectedBlockWidth, connectionWidth and startY, [measure] leaves the
    width and the height non-negative; [widthWithConnectedBlocks] is
    non-negative on a top and a bottom row, and on an input row when
    moreover every external value input with a connected block has
    [connectionWidth <= connectedBlockWidth]; [startY] of a top row and
    [overhangY] of a bottom row are non-negative after the call when they
    were so before it.  A spacer row keeps the width, the height and the
    [widthWithConnectedBlocks] it had, non-negative or not. *)
Theorem measure_nonnegative (env : Env) :
  (forall r : TopRow.t,
     let b := TopRow.base r in
     let r' := TopRow.measure env r in
     0 <= Row.minWidth b -> 0 <= Row.minHeight b ->
     Forall nonNegativeElement (Row.elements b) ->
     0 <= Row.width (TopRow.base r') /\ 0 <= Row.height (TopRow.base r') /\
     0 <= Row.widthWithConnectedBlocks (TopRow.base r') /\
     (0 <= TopRow.startY r -> 0 <= TopRow.startY r')) /\
  (forall r : BottomRow.t,
     let b := BottomRow.base r in
     let r' := BottomRow.measure env r in
     0 <= Row.minWidth b -> 0 <= Row.minHeight b ->
     Forall nonNegativeElement (Row.elements b) ->
     0 <= Row.width (BottomRow.base r') /\
     0 <= Row.height (BottomRow.base r') /\
     0 <= Row.widthWithConnectedBlocks (BottomRow.base r') /\
     (0 <= BottomRow.overhangY r -> 0 <= BottomRow.overhangY r')) /\
  (forall r : InputRow.t,
     let b := InputRow.base r in
     let b' := InputRow.base (InputRow.measure env r) in
     0 <= Row.minWidth b -> 0 <= Row.minHeight b ->
     Forall nonNegativeElement (Row.elements b) ->
     0 <= Row.width b' /\ 0 <= Row.height b' /\
     (Forall connectionNotWider (Row.elements b) ->
      0 <= Row.widthWithConnectedBlocks b')) /\
  (forall r : SpacerRow.t,
     let r' := SpacerRow.measure r in
     SpacerRow.width r' = SpacerRow.width r /\
     SpacerRow.height r' = SpacerRow.height r /\
     SpacerRow.widthWithConnectedBlocks r' =
       SpacerRow.widthWithConnectedBlocks r).
Proof.
  split; [|split; [|split]].
  - intros r b r' Hw Hh Hall. subst r'.
    rewrite TopRow_measure_closed. cbn. fold b.
    pose proof (sumWidths_nonneg _ Hall).
    pose proof (stackedHeight_lower_bound env isHatType _ (Row.minHeight b)
                  (heights_nonneg _ Hall)).
    repeat split; try lia.
    intros Hy. exact (lastHatStartY_nonneg env _ _ Hy Hall).
  - intros r b r' Hw Hh Hall. subst r'.
    rewrite BottomRow_measure_closed. cbn. fold b.
    pose proof (sumWidths_nonneg _ Hall).
    pose proof (stackedHeight_lower_bound env isNextConnectionType _
                  (Row.minHeight b) (heights_nonneg _ Hall)).
    repeat split; try lia.
    intros Hy. exact (lastOverhangY_nonneg env _ _ Hy Hall).
  - intros r b b' Hw Hh Hall. subst b'.
    rewrite InputRow_measure_closed. cbn. fold b.
    pose proof (sumWidths_nonneg _ Hall).
    pose proof (maxHeight_lower_bound env (Row.elements b) (Row.minHeight b)).
    repeat split; try lia.
    intros Hfit.
    pose proof (sumConnectedWidths_nonneg_external _ Hall Hfit). lia.
  - intros r. repeat split.
Qed.

Lemma measure_nonnegative_witness :
  let input := Measurable.mk "external value input" true 40 10 0 50 30 in
  let r :=
    InputRow.mk
      (Row.mk "input row" [input] 0 0 0 0 0 0 0
              false false false false false) in
  (0 <= Row.minWidth (InputRow.base r) /\
   0 <= Row.minHeight (InputRow.base r) /\
   Forall nonNegativeElement (Row.elements (InputRow.base r)) /\
   Forall connectionNotWider (Row.elements (InputRow.base r))) /\
  0 <= Row.widthWithConnectedBlocks
         (InputRow.base (InputRow.measure exampleEnv r)).
Proof.
  intros input r.
  assert (Hw : 0 <= Row.minWidth (InputRow.base r)) by (cbn; lia).
  assert (Hh : 0 <= Row.minHeight (InputRow.base r)) by (cbn; lia).
  assert (Hall : Forall nonNegativeElement (Row.elements (InputRow.base r)))
    by (repeat constructor; cbn; lia).
  assert (Hfit : Forall connectionNotWider (Row.elements (InputRow.base r)))
    by (repeat constructor; intros _ _ _; cbn; lia).
  split; [tauto|].
  destruct (measure_nonnegative exampleEnv) as (_ & _ & Hinput & _).
  destruct (Hinput r Hw Hh Hall) as (_ & _ & Hwc).
  exact (Hwc Hfit).
Defined.

(** ** Hats *)

Lemma lastHatStartY_app (env : Env) (s : Z) (l1 l2 : list Measurable.t)
    (e : Measurable.t) :
  isHatElement env e = true ->
  Forall (fun e' => isHatElement env e' = false) l2 ->
  lastHatStartY env s (l1 ++ e :: l2) = Measurable.startY e.
Proof.
  intros He Hl2. unfold lastHatStartY.
  rewrite foldl_app. cbn [foldl]. rewrite He.
  generalize (Measurable.startY e) as y.
  induction Hl2 as [|e' rest He' _ IH]; intros y; [reflexivity|].
  cbn [foldl]. rewrite He'. apply IH.
Qed.

Lemma TopRow_populate_elements (env : Env) (r : TopRow.t)
    (block : BlockSvg.t) :
  Row.elements (TopRow.base (TopRow.populate env r block)) =
  Row.elements (TopRow.base r)
  ++ (if TopRow.squareCorner env block then SquareCorner env
      else RoundCorner env)
  :: (if TopRow.hasHat env block then [Hat env]
      else match BlockSvg.previousConnection block with
           | Some c => [PreviousConnection env c]
           | None => []
           end).
Proof.
  unfold TopRow.populate.
  destruct (TopRow.squareCorner env block), (TopRow.hasHat env block),
    (BlockSvg.previousConnection block),
    (TopRow.precedesStatement env block && negb (BlockSvg.isCollapsed block));
    cbn; rewrite <- ?app_assoc; reflexivity.
Qed.

(** C3: a block with a hat sets the top row's [startY] to the hat's.
    [populate] pushes the hat it creates as the last element of the row and
    sets [startY] to that hat's [startY]; each iteration of the loop of
    [measure] on an element of type 'hat' (one that [isSpacer] does not
    report as a spacer, the guard of the loop body) sets [startY] to the
    element's [startY], so that after [measure] the row's [startY] is that of
    its last hat; and on a freshly constructed top row populated from a block
    with a hat, [measure] leaves [startY] equal to the hat's. *)
Theorem hat_sets_startY (env : Env) :
  (forall (r : TopRow.t) (block : BlockSvg.t),
     TopRow.hasHat env block = true ->
     let r' := TopRow.populate env r block in
     TopRow.startY r' = Measurable.startY (Hat env) /\
     last (Row.elements (TopRow.base r')) = Some (Hat env)) /\
  (forall (r : TopRow.t) (e : Measurable.t),
     Measurable.type e = "hat" -> isSpacer env e = false ->
     TopRow.startY (TopRow.measure_step env r e) = Measurable.startY e) /\
  (forall (r : TopRow.t) (l1 l2 : list Measurable.t) (e : Measurable.t),
     Row.elements (TopRow.base r) = l1 ++ e :: l2 ->
     Measurable.type e = "hat" -> isSpacer env e = false ->
     Forall (fun e' => isHatElement env e' = false) l2 ->
     TopRow.startY (TopRow.measure env r) = Measurable.startY e) /\
  (forall block : BlockSvg.t,
     TopRow.hasHat env block = true ->
     Measurable.type (Hat env) = "hat" -> isSpacer env (Hat env) = false ->
     TopRow.startY
       (TopRow.measure env (TopRow.populate env TopRow.new block))
     = Measurable.startY (Hat env)).
Proof.
  assert (Hlast : forall (r : TopRow.t) (l1 l2 : list Measurable.t)
                         (e : Measurable.t),
     Row.elements (TopRow.base r) = l1 ++ e :: l2 ->
     Measurable.type e = "hat" -> isSpacer env e = false ->
     Forall (fun e' => isHatElement env e' = false) l2 ->
     TopRow.startY (TopRow.measure env r) = Measurable.startY e).
  { intros r l1 l2 e Hels Hty Hsp Hl2.
    rewrite TopRow_measure_closed. cbn. rewrite Hels.
    apply lastHatStartY_app; [|exact Hl2].
    unfold isHatElement. rewrite Hsp, Hty. reflexivity. }
  split; [|split; [|split]].
  - intros r block Hhat r'. subst r'. split.
    + unfold TopRow.populate. rewrite Hhat.
      destruct (TopRow.squareCorner env block),
        (TopRow.precedesStatement env block
         && negb (BlockSvg.isCollapsed block)); reflexivity.
    + rewrite TopRow_populate_elements, Hhat.
      rewrite (cons_middle _ (Row.elements (TopRow.base r)) [Hat env]).
      rewrite app_assoc.
      apply last_snoc.
  - intros r e Hty Hsp. unfold TopRow.measure_step.
    rewrite Hsp, Hty. reflexivity.
  - exact Hlast.
  - intros block Hhat Hty Hsp.
    apply (Hlast _ [if TopRow.squareCorner env block then SquareCorner env
                    else RoundCorner env] [] (Hat env));
      [|exact Hty|exact Hsp|constructor].
    rewrite TopRow_populate_elements, Hhat. reflexivity.
Qed.

Lemma hat_sets_startY_witness :
  let block :=
    BlockSvg.mk 1%nat (Some "cap") None (Some 7%nat) None [] false false
                None None in
  (TopRow.hasHat exampleEnv block = true /\
   Measurable.type (Hat exampleEnv) = "hat" /\
   isSpacer exampleEnv (Hat exampleEnv) = false) /\
  TopRow.startY
    (TopRow.measure exampleEnv (TopRow.populate exampleEnv TopRow.new block))
  = Measurable.startY (Hat exampleEnv).
Proof.
  intros block.
  split; [repeat split|].
  destruct (hat_sets_startY exampleEnv) as (_ & _ & _ & Hfresh).
  apply (Hfresh block); reflexivity.
Defined.

(** ** Decorations *)

Lemma TopRow_squareCorner_spec (env : Env) (block : BlockSvg.t) :
  TopRow.squareCorner env block = true <-> topIsSquare env block.
Proof.
  unfold TopRow.squareCorner, topIsSquare, TopRow.previousLeadsHere.
  rewrite !orb_true_iff, bool_decide_eq_true.
  split.
  - intros [[Ho|Hh]|Hp]; [left; exact Ho|right; left; exact Hh|].
    right; right.
    destruct (BlockSvg.getPreviousBlock block) as [p|]; [|discriminate].
    destruct (BlockSvg.neighbourNextBlock p) as [n|] eqn:Hn; [|discriminate].
    apply Nat.eqb_eq in Hp. subst n. exists p. split; [reflexivity|exact Hn].
  - intros [Ho|[Hh|(p & Hp & Hn)]]; [left; left; exact Ho|left; right; exact Hh|].
    right. rewrite Hp, Hn. apply Nat.eqb_refl.
Qed.

Lemma BottomRow_squareCorner_spec (env : Env) (block : BlockSvg.t) :
  BottomRow.squareCorner block = true <-> bottomIsSquare block.
Proof.
  unfold BottomRow.squareCorner, bottomIsSquare.
  rewrite orb_true_iff, !bool_decide_eq_true. reflexivity.
Qed.

Lemma BottomRow_populate_elements (env : Env) (r : BottomRow.t)
    (block : BlockSvg.t) :
  Row.elements (BottomRow.base (BottomRow.populate env r block)) =
  Row.elements (BottomRow.base r)
  ++ (if BottomRow.squareCorner block then SquareCorner env
      else RoundCorner env)
  :: match BlockSvg.nextConnection block with
     | Some c => [NextConnection env c]
     | None => []
     end.
Proof.
  unfold BottomRow.populate.
  destruct (BottomRow.squareCorner block),
    (BottomRow.followsStatement env block),
    (BlockSvg.nextConnection block);
    cbn; rewrite <- ?app_assoc; reflexivity.
Qed.

(** C4: [TopRow.populate] pushes one corner, a SquareCorner when the block
    has an output connection, has a hat, or is the next block of its previous
    block, and a RoundCorner otherwise (the first element of a freshly
    constructed row), then a Hat when the block has a hat, else a
    PreviousConnection when the block has a previous connection, else
    nothing.  [BottomRow.populate] pushes one corner, square when the block
    has an output connection or a next block and round otherwise, then a
    NextConnection exactly when the block has a next connection. *)
Theorem populate_elements (env : Env) (block : BlockSvg.t) :
  (exists corner rest,
     (forall r : TopRow.t,
        Row.elements (TopRow.base (TopRow.populate env r block)) =
        Row.elements (TopRow.base r) ++ corner :: rest) /\
     Row.elements (TopRow.base (TopRow.populate env TopRow.new block)) =
       corner :: rest /\
     (topIsSquare env block -> corner = SquareCorner env) /\
     (~ topIsSquare env block -> corner = RoundCorner env) /\
     (TopRow.hasHat env block = true -> rest = [Hat env]) /\
     (TopRow.hasHat env block = false ->
      forall c, BlockSvg.previousConnection block = Some c ->
                rest = [PreviousConnection env c]) /\
     (TopRow.hasHat env block = false ->
      BlockSvg.previousConnection block = None -> rest = [])) /\
  (exists corner rest,
     (forall r : BottomRow.t,
        Row.elements (BottomRow.base (BottomRow.populate env r block)) =
        Row.elements (BottomRow.base r) ++ corner :: rest) /\
     Row.elements (BottomRow.base (BottomRow.populate env BottomRow.new block))
       = corner :: rest /\
     (bottomIsSquare block -> corner = SquareCorner env) /\
     (~ bottomIsSquare block -> corner = RoundCorner env) /\
     (forall c, BlockSvg.nextConnection block = Some c ->
                rest = [NextConnection env c]) /\
     (BlockSvg.nextConnection block = None -> rest = [])).
Proof.
  split.
  - eexists _, _. split; [intros r; apply TopRow_populate_elements|].
    split; [apply (TopRow_populate_elements env TopRow.new)|].
    pose proof (TopRow_squareCorner_spec env block) as Hsq.
    destruct (TopRow.squareCorner env block), (TopRow.hasHat env block);
      repeat split; try congruence; try tauto.
    all: first [ intros Hn; exfalso; apply Hn, Hsq; reflexivity
               | intros Hs; apply Hsq in Hs; discriminate
               | intros _ c Hc; rewrite Hc; reflexivity
               | intros _ Hc; rewrite Hc; reflexivity ].
  - eexists _, _. split; [intros r; apply BottomRow_populate_elements|].
    split; [apply (BottomRow_populate_elements env BottomRow.new)|].
    pose proof (BottomRow_squareCorner_spec env block) as Hsq.
    destruct (BottomRow.squareCorner block);
      repeat split; try congruence; try tauto.
    all: first [ intros Hn; exfalso; apply Hn, Hsq; reflexivity
               | intros Hs; apply Hsq in Hs; discriminate
               | intros c Hc; rewrite Hc; reflexivity
               | intros Hc; rewrite Hc; reflexivity ].
Qed.

Lemma populate_elements_witness :
  let block :=
    BlockSvg.mk 1%nat (Some "cap") None (Some 7%nat) None [] false false
                None None in
  (topIsSquare exampleEnv block /\ TopRow.hasHat exampleEnv block = true) /\
  Row.elements (TopRow.base (TopRow.populate exampleEnv TopRow.new block)) =
  [SquareCorner exampleEnv; Hat exampleEnv].
Proof.
  intros block.
  assert (Hsq : topIsSquare exampleEnv block) by (right; left; reflexivity).
  assert (Hhat : TopRow.hasHat exampleEnv block = true) by reflexivity.
  split; [split; assumption|].
  destruct (populate_elements exampleEnv block)
    as [(corner & rest & _ & Hnew & Hsquare & _ & Hrest & _) _].
  rewrite Hnew, (Hsquare Hsq), (Hrest Hhat). reflexivity.
Defined.

(** ** Completions *)

(** C5: [measure] on a base [Row] throws, whatever the state of the row, and
    the row at the time of the throw is the row before the call. *)
Theorem base_measure_throws (env : Env) (r : Row.t) :
  Row.measure r = Throw "Unexpected attempt to measure a base Row." r /\
  callMeasure env (BaseRow r) =
    Throw "Unexpected attempt to measure a base Row." (BaseRow r).
Proof. split; reflexivity. Qed.

Lemma forElements_runs {St : Type} (elements : St -> list Measurable.t)
    (body : St -> Measurable.t -> Completion St)
    (step : St -> Measurable.t -> St) :
  (forall st elem, body st elem = Normal (step st elem)) ->
  (forall st elem, elements (step st elem) = elements st) ->
  forall (fuel e : nat) (st : St),
    (e <= length (elements st))%nat ->
    (length (elements st) - e < fuel)%nat ->
    forElements elements body fuel e st =
    Some (Normal (foldl step st (drop e (elements st)))).
Proof.
  intros Hbody Hframe.
  induction fuel as [|fuel IH]; intros e st He Hfuel; [lia|].
  cbn [forElements].
  destruct (Nat.ltb_spec e (length (elements st))) as [Hlt|Hge].
  - unfold elementAt.
    destruct (elements st !! e) as [elem|] eqn:Hl;
      [|apply lookup_ge_None in Hl; lia].
    rewrite Hbody, IH, Hframe by (rewrite Hframe; lia).
    rewrite (drop_S _ _ _ Hl). reflexivity.
  - rewrite drop_ge by lia. reflexivity.
Qed.

Lemma measure_body_normal (env : Env) (elem : Measurable.t) :
  callIsSpacer env elem = inl (isSpacer env elem).
Proof. reflexivity. Qed.

Lemma TopRow_measure_step_elements (env : Env) (r : TopRow.t)
    (elem : Measurable.t) :
  Row.elements (TopRow.base (TopRow.measure_step env r elem)) =
  Row.elements (TopRow.base r).
Proof.
  change (TopRow.measure_step env r elem)
    with (foldl (TopRow.measure_step env) r [elem]).
  rewrite TopRow_loop. reflexivity.
Qed.

Lemma BottomRow_measure_step_elements (env : Env) (r : BottomRow.t)
    (elem : Measurable.t) :
  Row.elements (BottomRow.base (BottomRow.measure_step env r elem)) =
  Row.elements (BottomRow.base r).
Proof.
  change (BottomRow.measure_step env r elem)
    with (foldl (BottomRow.measure_step env) r [elem]).
  rewrite BottomRow_loop. reflexivity.
Qed.

Lemma InputRow_measure_step_elements (env : Env) (st : InputRow.loopState)
    (elem : Measurable.t) :
  Row.elements (InputRow.row (InputRow.measure_step env st elem)) =
  Row.elements (InputRow.row st).
Proof.
  change (InputRow.measure_step env st elem)
    with (foldl (InputRow.measure_step env) st [elem]).
  rewrite InputRow_loop. reflexivity.
Qed.

Lemma precedesStatement_run_ok (env : Env) (block : BlockSvg.t) :
  precedesStatement_run env block =
  inl (TopRow.precedesStatement env block).
Proof.
  unfold precedesStatement_run, TopRow.precedesStatement, inputTypeAt.
  destruct (BlockSvg.inputList block); reflexivity.
Qed.

Lemma followsStatement_run_ok (env : Env) (block : BlockSvg.t) :
  followsStatement_run env block =
  inl (BottomRow.followsStatement env block).
Proof.
  unfold followsStatement_run, BottomRow.followsStatement, inputTypeAt.
  rewrite last_lookup.
  destruct (BlockSvg.inputList block) as [|i l]; [reflexivity|].
  cbn [length Nat.eqb Nat.pred]. rewrite Nat.sub_1_r. cbn [Nat.pred].
  destruct ((i :: l) !! length l) eqn:Hl; [reflexivity|].
  apply lookup_ge_None in Hl. cbn [length] in Hl. lia.
Qed.

Lemma squareCorner_run_ok (env : Env) (block : BlockSvg.t) :
  squareCorner_run env block = inl (TopRow.squareCorner env block).
Proof.
  unfold squareCorner_run, TopRow.squareCorner, previousLeadsHere_run,
    TopRow.previousLeadsHere, callGetNextBlock.
  destruct (bool_decide (is_Some (BlockSvg.outputConnection block))
            || TopRow.hasHat env block); [reflexivity|].
  destruct (BlockSvg.getPreviousBlock block) as [p|]; [|reflexivity].
  cbn. destruct (BlockSvg.neighbourNextBlock p); reflexivity.
Qed.

(** C6: [populate] and [measure] have no failure mode on the concrete rows.
    Run statement by statement, with a TypeError at every read of a property
    of [undefined] or null and at every call of something that is not a
    function, [populate] on a top or a bottom row completes normally for
    every block, and [measure] on a top, bottom or input row completes
    normally for every list of elements as soon as the fuel exceeds the
    number of elements: the loop ends, its index stays within the array, and
    the guards [inputList.length && ...] and [prevBlock && ...] keep the
    reads behind them defined.  The results are those of [populate] and
    [measure].  On a spacer row [measure] has nothing to run. *)
Theorem concrete_rows_complete_normally (env : Env) :
  (forall (r : TopRow.t) (block : BlockSvg.t),
     TopRow_populate_run env r block =
     Normal (TopRow.populate env r block)) /\
  (forall (r : BottomRow.t) (block : BlockSvg.t),
     BottomRow_populate_run env r block =
     Normal (BottomRow.populate env r block)) /\
  (forall (r : TopRow.t) (fuel : nat),
     (length (Row.elements (TopRow.base r)) < fuel)%nat ->
     TopRow_measure_run env fuel r = Some (Normal (TopRow.measure env r))) /\
  (forall (r : BottomRow.t) (fuel : nat),
     (length (Row.elements (BottomRow.base r)) < fuel)%nat ->
     BottomRow_measure_run env fuel r =
     Some (Normal (BottomRow.measure env r))) /\
  (forall (r : InputRow.t) (fuel : nat),
     (length (Row.elements (InputRow.base r)) < fuel)%nat ->
     InputRow_measure_run env fuel r =
     Some (Normal (InputRow.measure env r))) /\
  (forall r : SpacerRow.t,
     callMeasure env (ASpacerRow r) = Normal (ASpacerRow r)).
Proof.
  split; [|split; [|split; [|split; [|split]]]].
  - intros r block. unfold TopRow_populate_run, TopRow.populate.
    rewrite squareCorner_run_ok, precedesStatement_run_ok.
    destruct (TopRow.precedesStatement env block
              && negb (BlockSvg.isCollapsed block)); reflexivity.
  - intros r block. unfold BottomRow_populate_run, BottomRow.populate.
    rewrite followsStatement_run_ok.
    cbn [BottomRow.hasNextConnection BottomRow.set_hasNextConnection
         BottomRow.set_hasFixedWidth BottomRow.on_base].
    destruct (bool_decide (is_Some (BlockSvg.nextConnection block)));
      [|destruct (BottomRow.followsStatement env block),
          (BottomRow.squareCorner block); reflexivity].
    destruct (BlockSvg.nextConnection block),
      (BottomRow.followsStatement env block),
      (BottomRow.squareCorner block); reflexivity.
  - intros r fuel Hfuel. unfold TopRow_measure_run, TopRow.measure.
    rewrite (forElements_runs _ _ (TopRow.measure_step env)).
    + rewrite drop_0. reflexivity.
    + intros st elem. unfold TopRow_measure_body.
      rewrite measure_body_normal. reflexivity.
    + apply TopRow_measure_step_elements.
    + lia.
    + destruct r as [[]]. cbn in *. lia.
  - intros r fuel Hfuel. unfold BottomRow_measure_run, BottomRow.measure.
    rewrite (forElements_runs _ _ (BottomRow.measure_step env)).
    + rewrite drop_0. reflexivity.
    + intros st elem. unfold BottomRow_measure_body.
      rewrite measure_body_normal. reflexivity.
    + apply BottomRow_measure_step_elements.
    + lia.
    + destruct r as [[]]. cbn in *. lia.
  - intros r fuel Hfuel. unfold InputRow_measure_run, InputRow.measure.
    rewrite (forElements_runs _ _ (InputRow.measure_step env)).
    + rewrite drop_0. reflexivity.
    + intros st elem. unfold InputRow_measure_body.
      rewrite measure_body_normal. reflexivity.
    + apply InputRow_measure_step_elements.
    + lia.
    + destruct r as [[]]. cbn in *. lia.
  - reflexivity.
Qed.

Lemma concrete_rows_complete_normally_witness :
  let r :=
    InputRow.mk
      (Row.mk "input row"
              [exampleMeasurable "field" 12 8;
               Measurable.mk "statement input" true 20 30 0 50 0]
              0 0 10 0 0 0 0 false false false false false) in
  (length (Row.elements (InputRow.base r)) < 3)%nat /\
  InputRow_measure_run exampleEnv 3 r =
  Some (Normal (InputRow.measure exampleEnv r)).
Proof.
  intros r.
  assert (Hfuel : (length (Row.elements (InputRow.base r)) < 3)%nat)
    by (cbn; lia).
  split; [exact Hfuel|].
  destruct (concrete_rows_complete_normally exampleEnv)
    as (_ & _ & _ & _ & Hinput & _).
  exact (Hinput r 3%nat Hfuel).
Defined.

(** ** Frame *)

(** C7: [measure] changes nothing of a row but [width], [height] and
    [widthWithConnectedBlocks], and [startY] on a top row, [overhangY] on a
    bottom row: the type, the elements, the minimal sizes, the position, the
    flags and the connection are those of the row before the call.  On a
    spacer row it changes nothing at all. *)
Theorem measure_frame (env : Env) :
  (forall r : TopRow.t,
     exists w h wc sy,
       TopRow.measure env r =
       let b := TopRow.base r in
       TopRow.mk
         (Row.mk (Row.type b) (Row.elements b) h w (Row.minHeight b)
                 (Row.minWidth b) wc (Row.yPos b) (Row.xPos b)
                 (Row.hasExternalInput b) (Row.hasStatement b)
                 (Row.hasInlineInput b) (Row.hasDummyInput b)
                 (Row.hasJaggedEdge b))
         sy (TopRow.hasPreviousConnection r) (TopRow.connection r)) /\
  (forall r : BottomRow.t,
     exists w h wc oy,
       BottomRow.measure env r =
       let b := BottomRow.base r in
       BottomRow.mk
         (Row.mk (Row.type b) (Row.elements b) h w (Row.minHeight b)
                 (Row.minWidth b) wc (Row.yPos b) (Row.xPos b)
                 (Row.hasExternalInput b) (Row.hasStatement b)
                 (Row.hasInlineInput b) (Row.hasDummyInput b)
                 (Row.hasJaggedEdge b))
         (BottomRow.hasNextConnection r) (BottomRow.connection r) oy
         (BottomRow.hasFixedWidth r)) /\
  (forall r : InputRow.t,
     exists w h wc,
       InputRow.measure env r =
       let b := InputRow.base r in
       InputRow.mk
         (Row.mk (Row.type b) (Row.elements b) h w (Row.minHeight b)
                 (Row.minWidth b) wc (Row.yPos b) (Row.xPos b)
                 (Row.hasExternalInput b) (Row.hasStatement b)
                 (Row.hasInlineInput b) (Row.hasDummyInput b)
                 (Row.hasJaggedEdge b))) /\
  (forall r : SpacerRow.t, SpacerRow.measure r = r).
Proof.
  split; [|split; [|split]].
  - intros r. rewrite TopRow_measure_closed. eexists _, _, _, _. reflexivity.
  - intros r. rewrite BottomRow_measure_closed. eexists _, _, _, _.
    reflexivity.
  - intros r. rewrite InputRow_measure_closed. eexists _, _, _. reflexivity.
  - reflexivity.
Qed.

(** ** Connected blocks *)

Lemma addConnectedWidth_step (acc : Z) (e : Measurable.t) :
  (if addsConnectedWidth e then
     if String.eqb (Measurable.type e) "statement input" then
       acc + Measurable.connectedBlockWidth e
     else acc + (Measurable.connectedBlockWidth e
                 - Measurable.connectionWidth e)
   else acc) = acc + connectedWidthOf e.
Proof.
  unfold addsConnectedWidth, connectedWidthOf.
  destruct (Measurable.isInput e); cbn [andb]; [|lia].
  destruct (String.eqb (Measurable.type e) "statement input");
    cbn [orb]; [lia|].
  destruct (String.eqb (Measurable.type e) "external value input");
    cbn [andb]; [|lia].
  destruct (Measurable.connectedBlockWidth e =? 0); cbn [negb]; lia.
Qed.

Lemma connectedBlockWidthsOf_sum (elems : list Measurable.t) :
  connectedBlockWidthsOf elems = sumConnectedWidths elems.
Proof.
  unfold connectedBlockWidthsOf.
  enough (H : forall acc,
            foldl (fun acc e =>
                     if addsConnectedWidth e then
                       if String.eqb (Measurable.type e) "statement input"
                       then acc + Measurable.connectedBlockWidth e
                       else acc + (Measurable.connectedBlockWidth e
                                   - Measurable.connectionWidth e)
                     else acc) acc elems
            = acc + sumConnectedWidths elems)
    by (rewrite H; lia).
  induction elems as [|e rest IH]; intros acc;
    cbn [foldl sumConnectedWidths foldr]; [lia|].
  rewrite IH, addConnectedWidth_step. fold (sumConnectedWidths rest). lia.
Qed.

Lemma sumConnectedWidths_none (elems : list Measurable.t) :
  Forall (fun e => addsConnectedWidth e = false) elems ->
  sumConnectedWidths elems = 0.
Proof.
  induction 1 as [|e rest He _ IH]; cbn [sumConnectedWidths foldr];
    [reflexivity|].
  fold (sumConnectedWidths rest). rewrite IH.
  pose proof (addConnectedWidth_step 0 e) as Hstep. rewrite He in Hstep. lia.
Qed.

(** C8: after [TopRow.measure] and after [BottomRow.measure],
    [widthWithConnectedBlocks] equals [width].  After [InputRow.measure] it
    is [width] plus [connectedBlockWidths], the sum that the loop builds from
    the statement inputs and the external value inputs with a connected
    block; it equals [width] on a row without such an input, and it can
    differ from [width].  [SpacerRow.measure] leaves both fields as they
    were. *)
Theorem widthWithConnectedBlocks_after_measure (env : Env) :
  (forall r : TopRow.t,
     let b' := TopRow.base (TopRow.measure env r) in
     Row.widthWithConnectedBlocks b' = Row.width b') /\
  (forall r : BottomRow.t,
     let b' := BottomRow.base (BottomRow.measure env r) in
     Row.widthWithConnectedBlocks b' = Row.width b') /\
  (forall r : InputRow.t,
     let b' := InputRow.base (InputRow.measure env r) in
     Row.widthWithConnectedBlocks b' =
       Row.width b' + connectedBlockWidthsOf (Row.elements (InputRow.base r)) /\
     (Forall (fun e => addsConnectedWidth e = false)
             (Row.elements (InputRow.base r)) ->
      Row.widthWithConnectedBlocks b' = Row.width b')) /\
  (forall r : SpacerRow.t,
     let r' := SpacerRow.measure r in
     SpacerRow.widthWithConnectedBlocks r' =
       SpacerRow.widthWithConnectedBlocks r /\
     SpacerRow.width r' = SpacerRow.width r) /\
  (exists r : InputRow.t,
     let b' := InputRow.base (InputRow.measure env r) in
     Row.widthWithConnectedBlocks b' <> Row.width b').
Proof.
  split; [|split; [|split; [|split]]].
  - intros r. rewrite TopRow_measure_closed. reflexivity.
  - intros r. rewrite BottomRow_measure_closed. reflexivity.
  - intros r. rewrite InputRow_measure_closed.
    cbn -[sumWidths sumConnectedWidths maxHeight connectedBlockWidthsOf].
    rewrite connectedBlockWidthsOf_sum. split; [reflexivity|].
    intros Hnone. rewrite (sumConnectedWidths_none _ Hnone). lia.
  - intros r. split; reflexivity.
  - exists (InputRow.mk
              (Row.mk "input row"
                 [Measurable.mk "statement input" true 20 10 0 50 0]
                 0 0 0 0 0 0 0 false false false false false)).
    rewrite InputRow_measure_closed. cbn. lia.
Qed.

Lemma widthWithConnectedBlocks_after_measure_witness :
  let r :=
    InputRow.mk
      (Row.mk "input row"
              [exampleMeasurable "field" 12 8;
               Measurable.mk "external value input" true 20 10 0 0 8]
              0 0 0 0 0 0 0 false false false false false) in
  Forall (fun e => addsConnectedWidth e = false)
         (Row.elements (InputRow.base r)) /\
  Row.widthWithConnectedBlocks (InputRow.base (InputRow.measure exampleEnv r))
  = Row.width (InputRow.base (InputRow.measure exampleEnv r)).
Proof.
  intros r.
  assert (Hnone : Forall (fun e => addsConnectedWidth e = false)
                         (Row.elements (InputRow.base r)))
    by (repeat constructor).
  split; [exact Hnone|].
  destruct (widthWithConnectedBlocks_after_measure exampleEnv)
    as (_ & _ & Hinput & _).
  exact (proj2 (Hinput r) Hnone).
Defined.

(** ** Spacers *)

Lemma getLastSpacer_loop_length (elems : list Measurable.t) :
  Row.getLastSpacer_loop elems (length elems) = last elems.
Proof.
  destruct elems as [|e rest] using rev_ind; [reflexivity|].
  rewrite length_app, last_snoc. cbn [length].
  rewrite Nat.add_comm. cbn [Nat.add Row.getLastSpacer_loop].
  unfold elementAt. rewrite lookup_app_r by lia.
  rewrite Nat.sub_diag. reflexivity.
Qed.

(** C9: [getFirstSpacer] returns the first element of the row and
    [getLastSpacer] the last one, spacer or not, and both return null on a
    row without elements. *)
Theorem first_and_last_spacer (o : RowObject) :
  callGetFirstSpacer o = head (elementsOf o) /\
  callGetLastSpacer o = last (elementsOf o) /\
  Row.getFirstSpacer [] = None /\ Row.getLastSpacer [] = None.
Proof.
  unfold callGetFirstSpacer, callGetLastSpacer, Row.getFirstSpacer,
    Row.getLastSpacer.
  repeat split.
  - destruct (elementsOf o); reflexivity.
  - apply getLastSpacer_loop_length.
Qed.

(** C10: a spacer row constructed with a height and a width has one element,
    the in-row spacer of that width, and any number of calls of [measure]
    completes normally and leaves the row, hence its width and height, as
    constructed. *)
Theorem spacer_row_measure_noop (env : Env) (height width : Z) (n : nat) :
  let r := SpacerRow.new env height width in
  SpacerRow.elements r = [InRowSpacer env width] /\
  exists r',
    measureTimes env n (ASpacerRow r) = Normal (ASpacerRow r') /\
    SpacerRow.width r' = width /\ SpacerRow.height r' = height /\
    r' = r.
Proof.
  intros r. split; [reflexivity|].
  exists r. split; [|repeat split].
  induction n as [|n IH]; [reflexivity|].
  cbn [measureTimes callMeasure andThen]. exact IH.
Qed.

(** ** The last input of a row *)

Lemma getLastInput_loop_prefix (env : Env) (fenv : FieldEnv)
    (elems tail : list Measurable.t) :
  forall n : nat,
    (n <= length elems)%nat ->
    getLastInput_loop env fenv (elems ++ tail) n =
    getLastInput_loop env fenv elems n.
Proof.
  induction n as [|i IH]; intros Hn; [reflexivity|].
  cbn [getLastInput_loop].
  rewrite lookup_app_l by lia.
  rewrite IH by lia. reflexivity.
Qed.

Lemma getLastInput_snoc (env : Env) (fenv : FieldEnv)
    (elems : list Measurable.t) (e : Measurable.t) :
  getLastInput env fenv (elems ++ [e]) =
  if isSpacer env e then getLastInput env fenv elems
  else if Measurable.isInput e then inl (Some e)
  else if isField fenv e then inl (parentInput fenv e)
  else getLastInput env fenv elems.
Proof.
  unfold getLastInput. rewrite length_app. cbn [length].
  rewrite Nat.add_comm. cbn [Nat.add getLastInput_loop].
  rewrite lookup_app_r by lia. rewrite Nat.sub_diag. cbn [lookup list_lookup].
  rewrite getLastInput_loop_prefix by lia. reflexivity.
Qed.

Lemma lastInputSearch_snoc (env : Env) (fenv : FieldEnv)
    (elems : list Measurable.t) (e : Measurable.t) :
  lastInputSearch env fenv (elems ++ [e]) =
  if stopsLastInput env fenv e then
    if Measurable.isInput e then Some e else parentInput fenv e
  else lastInputSearch env fenv elems.
Proof.
  unfold lastInputSearch. rewrite reverse_snoc. cbn [List.find].
  destruct (stopsLastInput env fenv e); reflexivity.
Qed.

(** X1: [getLastInput] never reads past the array (no TypeError), and it
    returns what the last element that is not a spacer and is an input or a
    field decides: that input itself, or the parent input of that field;
    null when the row has no such element. *)
Theorem getLastInput_is_search (env : Env) (fenv : FieldEnv)
    (elems : list Measurable.t) :
  getLastInput env fenv elems = inl (lastInputSearch env fenv elems).
Proof.
  induction elems as [|e elems IH] using rev_ind; [reflexivity|].
  rewrite getLastInput_snoc, lastInputSearch_snoc, IH.
  unfold stopsLastInput.
  destruct (isSpacer env e); [reflexivity|].
  destruct (Measurable.isInput e); [reflexivity|].
  destruct (isField fenv e); reflexivity.
Qed.

(** X2: elements after the last input or field do not count: a tail of
    spacers and of elements that are neither inputs nor fields leaves the
    result of [getLastInput] unchanged; in particular a row made of such
    elements only has no last input. *)
Theorem getLastInput_skips_tail (env : Env) (fenv : FieldEnv)
    (elems tail : list Measurable.t) :
  Forall (fun e => stopsLastInput env fenv e = false) tail ->
  getLastInput env fenv (elems ++ tail) = getLastInput env fenv elems /\
  getLastInput env fenv tail = inl None.
Proof.
  intros Htail.
  assert (Hgen : forall prefix,
            getLastInput env fenv (prefix ++ tail) =
            getLastInput env fenv prefix).
  { induction tail as [|e tail IH] using rev_ind; intros prefix.
    - rewrite app_nil_r. reflexivity.
    - apply Forall_app in Htail as [Htail He].
      inversion He as [|? ? Hstop _]; subst.
      rewrite app_assoc, getLastInput_snoc.
      unfold stopsLastInput in Hstop.
      destruct (isSpacer env e); [apply IH; exact Htail|].
      destruct (Measurable.isInput e); [discriminate|].
      destruct (isField fenv e); [discriminate|].
      apply IH; exact Htail. }
  split; [apply Hgen|].
  apply (Hgen []).
Qed.

Lemma getLastInput_skips_tail_witness :
  let input := Measurable.mk "inline value input" true 30 20 0 0 0 in
  let tail := [exampleMeasurable "in-row spacer" 5 0;
               exampleMeasurable "square corner" 0 0] in
  Forall (fun e => stopsLastInput exampleEnv exampleFieldEnv e = false) tail /\
  getLastInput exampleEnv exampleFieldEnv ([input] ++ tail) =
  getLastInput exampleEnv exampleFieldEnv [input].
Proof.
  intros input tail.
  assert (Htail : Forall (fun e => stopsLastInput exampleEnv exampleFieldEnv e
                                   = false) tail) by (repeat constructor).
  split; [exact Htail|].
  exact (proj1 (getLastInput_skips_tail exampleEnv exampleFieldEnv
                  [input] tail Htail)).
Defined.

(** X3: what [getLastInput] returns comes from the row: the result is an
    element of the row that is an input and not a spacer, or the parent
    input of an element of the row that is a field, not an input and not a
    spacer. *)
Theorem getLastInput_sound (env : Env) (fenv : FieldEnv)
    (elems : list Measurable.t) (x : Measurable.t) :
  getLastInput env fenv elems = inl (Some x) ->
  exists e,
    e ∈ elems /\ isSpacer env e = false /\
    ((Measurable.isInput e = true /\ x = e) \/
     (Measurable.isInput e = false /\ isField fenv e = true /\
      parentInput fenv e = Some x)).
Proof.
  induction elems as [|e elems IH] using rev_ind; [discriminate|].
  rewrite getLastInput_snoc.
  assert (Hrec : getLastInput env fenv elems = inl (Some x) ->
                 exists e0,
                   e0 ∈ elems ++ [e] /\ isSpacer env e0 = false /\
                   ((Measurable.isInput e0 = true /\ x = e0) \/
                    (Measurable.isInput e0 = false /\ isField fenv e0 = true /\
                     parentInput fenv e0 = Some x))).
  { intros H. destruct (IH H) as (e0 & Hin & Hrest).
    exists e0. split; [|exact Hrest]. apply elem_of_app. left. exact Hin. }
  destruct (isSpacer env e) eqn:Hsp; [exact Hrec|].
  destruct (Measurable.isInput e) eqn:Hin.
  - intros [= <-]. exists e. split; [|split; [exact Hsp|left; split; auto]].
    apply elem_of_app. right. apply list_elem_of_singleton. reflexivity.
  - destruct (isField fenv e) eqn:Hf; [|exact Hrec].
    intros [= Hp]. exists e.
    split; [|split; [exact Hsp|right; repeat split; assumption]].
    apply elem_of_app. right. apply list_elem_of_singleton. reflexivity.
Qed.

Lemma getLastInput_sound_witness :
  let input := Measurable.mk "inline value input" true 30 20 0 0 0 in
  let elems := [exampleMeasurable "field" 12 8;
                exampleMeasurable "in-row spacer" 5 0] in
  getLastInput exampleEnv exampleFieldEnv elems = inl (Some input) /\
  exists e,
    e ∈ elems /\ isSpacer exampleEnv e = false /\
    ((Measurable.isInput e = true /\ input = e) \/
     (Measurable.isInput e = false /\ isField exampleFieldEnv e = true /\
      parentInput exampleFieldEnv e = Some input)).
Proof.
  intros input elems.
  assert (H : getLastInput exampleEnv exampleFieldEnv elems
              = inl (Some input)) by reflexivity.
  split; [exact H|].
  exact (getLastInput_sound exampleEnv exampleFieldEnv elems input H).
Defined.

(** ** Measuring again *)

(** A loop that overwrites a field at some elements either leaves the
    initial value or produces a value that does not depend on it. *)
Lemma lastWrite_cases {A : Type} (p : A -> bool) (f : A -> Z) (l : list A) :
  (Forall (fun e => p e = false) l /\
   forall s, foldl (fun s e => if p e then f e else s) s l = s) \/
  (exists y, forall s, foldl (fun s e => if p e then f e else s) s l = y).
Proof.
  induction l as [|e l IH] using rev_ind.
  - left. split; [constructor|reflexivity].
  - destruct (p e) eqn:He.
    + right. exists (f e). intros s. rewrite foldl_snoc, He. reflexivity.
    + destruct IH as [[Hall Hid]|[y Hy]].
      * left. split.
        -- apply Forall_app. split; [exact Hall|]. constructor; [exact He|constructor].
        -- intros s. rewrite foldl_snoc, He. apply Hid.
      * right. exists y. intros s. rewrite foldl_snoc, He. apply Hy.
Qed.

Lemma lastWrite_idempotent {A : Type} (p : A -> bool) (f : A -> Z)
    (l : list A) (s : Z) :
  let g := foldl (fun s e => if p e then f e else s) in
  g (g s l) l = g s l.
Proof.
  intros g. subst g.
  destruct (lastWrite_cases p f l) as [[_ Hid]|[y Hy]].
  - rewrite !Hid. reflexivity.
  - rewrite !Hy. reflexivity.
Qed.

Lemma lastWrite_unchanged {A : Type} (p : A -> bool) (f : A -> Z)
    (l : list A) (s : Z) :
  Forall (fun e => p e = false) l ->
  foldl (fun s e => if p e then f e else s) s l = s.
Proof.
  intros Hall. revert s.
  induction Hall as [|e l He _ IH]; intros s; [reflexivity|].
  cbn [foldl]. rewrite He. apply IH.
Qed.

Lemma TopRow_measure_twice (env : Env) (r : TopRow.t) :
  TopRow.measure env (TopRow.measure env r) = TopRow.measure env r.
Proof.
  rewrite (TopRow_measure_closed env (TopRow.measure env r)).
  rewrite TopRow_measure_closed. cbn.
  unfold lastHatStartY. rewrite lastWrite_idempotent. reflexivity.
Qed.

Lemma BottomRow_measure_twice (env : Env) (r : BottomRow.t) :
  BottomRow.measure env (BottomRow.measure env r) = BottomRow.measure env r.
Proof.
  rewrite (BottomRow_measure_closed env (BottomRow.measure env r)).
  rewrite BottomRow_measure_closed. cbn.
  unfold lastOverhangY. rewrite lastWrite_idempotent. reflexivity.
Qed.

Lemma InputRow_measure_twice (env : Env) (r : InputRow.t) :
  InputRow.measure env (InputRow.measure env r) = InputRow.measure env r.
Proof.
  rewrite (InputRow_measure_closed env (InputRow.measure env r)).
  rewrite InputRow_measure_closed. reflexivity.
Qed.

(** X4: [measure] is idempotent on each of the four concrete classes: a
    second call changes nothing, since the sizes are recomputed from
    [minWidth], [minHeight] and the elements, which [measure] leaves alone. *)
Theorem measure_idempotent (env : Env) :
  (forall r : TopRow.t,
     TopRow.measure env (TopRow.measure env r) = TopRow.measure env r) /\
  (forall r : BottomRow.t,
     BottomRow.measure env (BottomRow.measure env r) =
     BottomRow.measure env r) /\
  (forall r : InputRow.t,
     InputRow.measure env (InputRow.measure env r) =
     InputRow.measure env r) /\
  (forall r : SpacerRow.t,
     SpacerRow.measure (SpacerRow.measure r) = SpacerRow.measure r).
Proof.
  split; [|split; [|split]].
  - apply TopRow_measure_twice.
  - apply BottomRow_measure_twice.
  - apply InputRow_measure_twice.
  - reflexivity.
Qed.

(** X5: a sequence of one or more calls of [row.measure()] ends like the
    first call: on a concrete row with the result of a single call, on a
    base row with the exception of the first call and the row untouched, the
    later calls being skipped. *)
Theorem measureTimes_is_first_call (env : Env) (n : nat) (o : RowObject) :
  measureTimes env (S n) o = callMeasure env o.
Proof.
  revert o. induction n as [|n IH]; intros o.
  - cbn [measureTimes]. destruct (callMeasure env o); reflexivity.
  - change (measureTimes env (S (S n)) o)
      with (andThen (callMeasure env o) (measureTimes env (S n))).
    destruct o as [r|r|r|r|r]; cbn [callMeasure andThen Row.measure].
    + reflexivity.
    + rewrite IH. cbn [callMeasure]. rewrite TopRow_measure_twice.
      reflexivity.
    + rewrite IH. cbn [callMeasure]. rewrite BottomRow_measure_twice.
      reflexivity.
    + rewrite IH. reflexivity.
    + rewrite IH. cbn [callMeasure]. rewrite InputRow_measure_twice.
      reflexivity.
Qed.

(** ** Spacers in a measured row *)

Lemma withoutSpacers_cons (env : Env) (e : Measurable.t)
    (rest : list Measurable.t) :
  withoutSpacers env (e :: rest) =
  if isSpacer env e then withoutSpacers env rest
  else e :: withoutSpacers env rest.
Proof.
  unfold withoutSpacers. rewrite filter_cons.
  destruct (isSpacer env e); case_decide; try congruence; reflexivity.
Qed.

Lemma stackedHeight_withoutSpacers (env : Env)
    (stacks : Measurable.t -> bool) (elems : list Measurable.t) :
  forall h : Z,
    stackedHeight env stacks h (withoutSpacers env elems) =
    stackedHeight env stacks h elems.
Proof.
  induction elems as [|e rest IH]; intros h; [reflexivity|].
  rewrite withoutSpacers_cons. cbn [stackedHeight].
  destruct (isSpacer env e) eqn:Hsp; [apply IH|].
  cbn [stackedHeight]. rewrite Hsp.
  destruct (stacks e); apply IH.
Qed.

Lemma maxHeight_withoutSpacers (env : Env) (m : Z)
    (elems : list Measurable.t) :
  maxHeight env m (withoutSpacers env elems) = maxHeight env m elems.
Proof.
  induction elems as [|e rest IH]; [reflexivity|].
  rewrite withoutSpacers_cons, maxHeight_cons.
  destruct (isSpacer env e) eqn:Hsp; [exact IH|].
  rewrite maxHeight_cons, Hsp, IH. reflexivity.
Qed.

Lemma lastWrite_withoutSpacers (env : Env) (q : Measurable.t -> bool)
    (f : Measurable.t -> Z) (elems : list Measurable.t) :
  forall s : Z,
    foldl (fun s e => if negb (isSpacer env e) && q e then f e else s) s
          (withoutSpacers env elems) =
    foldl (fun s e => if negb (isSpacer env e) && q e then f e else s) s
          elems.
Proof.
  induction elems as [|e rest IH]; intros s; [reflexivity|].
  rewrite withoutSpacers_cons. cbn [foldl].
  destruct (isSpacer env e) eqn:Hsp; cbn [negb andb]; [apply IH|].
  cbn [foldl]. rewrite Hsp. cbn [negb andb]. apply IH.
Qed.

Lemma sumWidths_split_spacers (env : Env) (elems : list Measurable.t) :
  sumWidths elems =
  sumWidths (withoutSpacers env elems)
  + sumWidths (filter (fun e => isSpacer env e = true) elems).
Proof.
  induction elems as [|e rest IH]; [reflexivity|].
  rewrite withoutSpacers_cons, filter_cons.
  destruct (isSpacer env e) eqn:Hsp; case_decide; try congruence;
    cbn [sumWidths foldr]; fold (sumWidths rest);
    fold (sumWidths (withoutSpacers env rest));
    fold (sumWidths (filter (fun e => isSpacer env e = true) rest)); lia.
Qed.

Lemma sumWidths_spacers_nonneg (env : Env) (elems : list Measurable.t) :
  Forall (fun e => isSpacer env e = true -> 0 <= Measurable.width e) elems ->
  0 <= sumWidths (filter (fun e => isSpacer env e = true) elems).
Proof.
  induction 1 as [|e rest He _ IH]; [cbn; lia|].
  rewrite filter_cons. case_decide as Hsp; [|exact IH].
  cbn [sumWidths foldr].
  fold (sumWidths (filter (fun e => isSpacer env e = true) rest)).
  specialize (He Hsp). lia.
Qed.

(** X6: spacers only widen a row.  The height that [measure] computes, and
    [startY] on a top row and [overhangY] on a bottom row, are those of the
    same row with its spacers removed; and when no spacer has a negative
    width, the measured width is at least that of the row with its spacers
    removed. *)
Theorem spacers_only_widen (env : Env) :
  (forall r : TopRow.t,
     let els := Row.elements (TopRow.base r) in
     let r0 := TopRow.on_base (Row.set_elements (withoutSpacers env els)) r in
     Row.height (TopRow.base (TopRow.measure env r)) =
       Row.height (TopRow.base (TopRow.measure env r0)) /\
     TopRow.startY (TopRow.measure env r) =
       TopRow.startY (TopRow.measure env r0) /\
     (Forall (fun e => isSpacer env e = true -> 0 <= Measurable.width e) els ->
      Row.width (TopRow.base (TopRow.measure env r0))
        <= Row.width (TopRow.base (TopRow.measure env r)))) /\
  (forall r : BottomRow.t,
     let els := Row.elements (BottomRow.base r) in
     let r0 :=
       BottomRow.on_base (Row.set_elements (withoutSpacers env els)) r in
     Row.height (BottomRow.base (BottomRow.measure env r)) =
       Row.height (BottomRow.base (BottomRow.measure env r0)) /\
     BottomRow.overhangY (BottomRow.measure env r) =
       BottomRow.overhangY (BottomRow.measure env r0) /\
     (Forall (fun e => isSpacer env e = true -> 0 <= Measurable.width e) els ->
      Row.width (BottomRow.base (BottomRow.measure env r0))
        <= Row.width (BottomRow.base (BottomRow.measure env r)))) /\
  (forall r : InputRow.t,
     let els := Row.elements (InputRow.base r) in
     let r0 :=
       InputRow.mk (Row.set_elements (withoutSpacers env els)
                                     (InputRow.base r)) in
     Row.height (InputRow.base (InputRow.measure env r)) =
       Row.height (InputRow.base (InputRow.measure env r0)) /\
     (Forall (fun e => isSpacer env e = true -> 0 <= Measurable.width e) els ->
      Row.width (InputRow.base (InputRow.measure env r0))
        <= Row.width (InputRow.base (InputRow.measure env r)))).
Proof.
  split; [|split].
  - intros r els r0. subst r0.
    rewrite !TopRow_measure_closed.
    cbn -[maxHeight sumWidths stackedHeight withoutSpacers filter].
    fold els.
    rewrite stackedHeight_withoutSpacers.
    unfold lastHatStartY, isHatElement.
    rewrite (lastWrite_withoutSpacers env
               (fun e => String.eqb (Measurable.type e) "hat")).
    rewrite (sumWidths_split_spacers env els). repeat split.
    intros Hall. pose proof (sumWidths_spacers_nonneg env els Hall). lia.
  - intros r els r0. subst r0.
    rewrite !BottomRow_measure_closed.
    cbn -[maxHeight sumWidths stackedHeight withoutSpacers filter].
    fold els.
    rewrite stackedHeight_withoutSpacers.
    unfold lastOverhangY, isNextConnectionElement.
    rewrite (lastWrite_withoutSpacers env
               (fun e => String.eqb (Measurable.type e) "next connection")).
    rewrite (sumWidths_split_spacers env els). repeat split.
    intros Hall. pose proof (sumWidths_spacers_nonneg env els Hall). lia.
  - intros r els r0. subst r0.
    rewrite !InputRow_measure_closed.
    cbn -[maxHeight sumWidths stackedHeight withoutSpacers filter].
    fold els.
    rewrite maxHeight_withoutSpacers.
    rewrite (sumWidths_split_spacers env els). split; [reflexivity|].
    intros Hall. pose proof (sumWidths_spacers_nonneg env els Hall). lia.
Qed.

Lemma spacers_only_widen_witness :
  let els := [exampleMeasurable "field" 12 8;
              exampleMeasurable "in-row spacer" 5 0;
              exampleMeasurable "field" 30 8] in
  let r :=
    InputRow.mk
      (Row.mk "input row" els 0 0 0 0 0 0 0 false false false false false) in
  Forall (fun e => isSpacer exampleEnv e = true -> 0 <= Measurable.width e)
         els /\
  Row.width
    (InputRow.base
       (InputRow.measure exampleEnv
          (InputRow.mk (Row.set_elements (withoutSpacers exampleEnv els)
                                         (InputRow.base r)))))
  <= Row.width (InputRow.base (InputRow.measure exampleEnv r)).
Proof.
  intros els r.
  assert (Hall : Forall (fun e => isSpacer exampleEnv e = true ->
                                  0 <= Measurable.width e) els)
    by (repeat constructor; intros _; cbn; lia).
  split; [exact Hall|].
  destruct (spacers_only_widen exampleEnv) as (_ & _ & Hinput).
  exact (proj2 (Hinput r) Hall).
Defined.

(** ** Order of the elements *)

Lemma maxHeight_permutation (env : Env) (m : Z) (l1 l2 : list Measurable.t) :
  l1 ≡ₚ l2 -> maxHeight env m l1 = maxHeight env m l2.
Proof.
  induction 1 as [|e l l' _ IH|e1 e2 l|l l' l'' _ IH1 _ IH2].
  - reflexivity.
  - rewrite !maxHeight_cons, IH. reflexivity.
  - rewrite !maxHeight_cons.
    destruct (isSpacer env e1), (isSpacer env e2); lia.
  - congruence.
Qed.

(** X7: on an input row the order of the elements does not matter to the
    height: measuring the row with its elements permuted gives the same
    height. *)
Theorem InputRow_height_permutation (env : Env) (r : InputRow.t)
    (elems' : list Measurable.t) :
  Row.elements (InputRow.base r) ≡ₚ elems' ->
  Row.height
    (InputRow.base
       (InputRow.measure env
          (InputRow.mk (Row.set_elements elems' (InputRow.base r))))) =
  Row.height (InputRow.base (InputRow.measure env r)).
Proof.
  intros Hperm. rewrite !InputRow_measure_closed.
  cbn -[maxHeight sumWidths sumConnectedWidths].
  rewrite <- (maxHeight_permutation env _ _ _ Hperm).
  reflexivity.
Qed.

Lemma InputRow_height_permutation_witness :
  let field := exampleMeasurable "field" 12 8 in
  let input := Measurable.mk "statement input" true 20 30 0 50 0 in
  let r :=
    InputRow.mk
      (Row.mk "input row" [field; input] 0 0 10 0 0 0 0
              false false false false false) in
  Row.elements (InputRow.base r) ≡ₚ [input; field] /\
  Row.height
    (InputRow.base
       (InputRow.measure exampleEnv
          (InputRow.mk (Row.set_elements [input; field] (InputRow.base r)))))
  = Row.height (InputRow.base (InputRow.measure exampleEnv r)).
Proof.
  intros field input r.
  assert (Hperm : Row.elements (InputRow.base r) ≡ₚ [input; field])
    by apply perm_swap.
  split; [exact Hperm|].
  exact (InputRow_height_permutation exampleEnv r [input; field] Hperm).
Defined.

(** ** Lower bounds of the height *)

Lemma maxHeight_elem_bound (env : Env) (m : Z) (elems : list Measurable.t)
    (e : Measurable.t) :
  e ∈ elems -> isSpacer env e = false ->
  Measurable.height e <= maxHeight env m elems.
Proof.
  intros Hin Hsp. induction Hin as [e rest|e e' rest _ IH].
  - rewrite maxHeight_cons, Hsp. lia.
  - rewrite maxHeight_cons. specialize (IH Hsp).
    destruct (isSpacer env e'); lia.
Qed.

Lemma stackedHeight_elem_bound (env : Env) (stacks : Measurable.t -> bool)
    (elems : list Measurable.t) (e : Measurable.t) :
  Forall (fun e' => 0 <= Measurable.height e') elems ->
  e ∈ elems -> isSpacer env e = false ->
  forall h : Z, Measurable.height e <= stackedHeight env stacks h elems.
Proof.
  intros Hall Hin Hsp. induction Hin as [e rest|e e' rest _ IH]; intros h.
  - inversion Hall as [|? ? _ Hrest]; subst.
    cbn [stackedHeight]. rewrite Hsp.
    destruct (stacks e);
      (etransitivity;
       [|apply stackedHeight_lower_bound; exact Hrest]); lia.
  - inversion Hall as [|? ? _ Hrest]; subst.
    cbn [stackedHeight].
    destruct (isSpacer env e'); [|destruct (stacks e')];
      apply IH; assumption.
Qed.

(** X8: a measured row is at least as high as its [minHeight] and as each
    of its elements that is not a spacer: always on an input row; on a top
    and a bottom row when no element has a negative height (a hat or next
    connection of negative height would lower the height reached before
    it). *)
Theorem elements_fit_in_height (env : Env) :
  (forall r : InputRow.t,
     let h' := Row.height (InputRow.base (InputRow.measure env r)) in
     Row.minHeight (InputRow.base r) <= h' /\
     forall e : Measurable.t,
       e ∈ Row.elements (InputRow.base r) -> isSpacer env e = false ->
       Measurable.height e <= h') /\
  (forall r : TopRow.t,
     let h' := Row.height (TopRow.base (TopRow.measure env r)) in
     Forall (fun e' => 0 <= Measurable.height e')
            (Row.elements (TopRow.base r)) ->
     Row.minHeight (TopRow.base r) <= h' /\
     forall e : Measurable.t,
       e ∈ Row.elements (TopRow.base r) -> isSpacer env e = false ->
       Measurable.height e <= h') /\
  (forall r : BottomRow.t,
     let h' := Row.height (BottomRow.base (BottomRow.measure env r)) in
     Forall (fun e' => 0 <= Measurable.height e')
            (Row.elements (BottomRow.base r)) ->
     Row.minHeight (BottomRow.base r) <= h' /\
     forall e : Measurable.t,
       e ∈ Row.elements (BottomRow.base r) -> isSpacer env e = false ->
       Measurable.height e <= h').
Proof.
  split; [|split].
  - intros r h'. subst h'. rewrite InputRow_measure_closed.
    cbn -[maxHeight]. split.
    + apply maxHeight_lower_bound.
    + intros e Hin Hsp. apply maxHeight_elem_bound; assumption.
  - intros r h' Hall. subst h'. rewrite TopRow_measure_closed.
    cbn -[stackedHeight]. split.
    + apply stackedHeight_lower_bound; assumption.
    + intros e Hin Hsp. apply stackedHeight_elem_bound; assumption.
  - intros r h' Hall. subst h'. rewrite BottomRow_measure_closed.
    cbn -[stackedHeight]. split.
    + apply stackedHeight_lower_bound; assumption.
    + intros e Hin Hsp. apply stackedHeight_elem_bound; assumption.
Qed.

Lemma elements_fit_in_height_witness :
  let corner := exampleMeasurable "round corner" 8 4 in
  let hat := Measurable.mk "hat" false 100 15 15 0 0 in
  let r :=
    TopRow.mk
      (Row.mk "top row" [corner; hat] 0 0 10 0 0 0 0
              false false false false false)
      0 false None in
  (Forall (fun e' => 0 <= Measurable.height e')
          (Row.elements (TopRow.base r)) /\
   hat ∈ Row.elements (TopRow.base r) /\ isSpacer exampleEnv hat = false) /\
  Row.minHeight (TopRow.base r)
    <= Row.height (TopRow.base (TopRow.measure exampleEnv r)) /\
  Measurable.height hat
    <= Row.height (TopRow.base (TopRow.measure exampleEnv r)).
Proof.
  intros corner hat r.
  assert (Hall : Forall (fun e' => 0 <= Measurable.height e')
                        (Row.elements (TopRow.base r)))
    by (repeat constructor; cbn; lia).
  assert (Hin : hat ∈ Row.elements (TopRow.base r))
    by (right; left).
  assert (Hsp : isSpacer exampleEnv hat = false) by reflexivity.
  split; [repeat split; assumption|].
  destruct (elements_fit_in_height exampleEnv) as (_ & Htop & _).
  destruct (Htop r Hall) as [Hmin Helem].
  split; [exact Hmin|exact (Helem hat Hin Hsp)].
Defined.

(** ** Connected blocks on an input row *)

Lemma connectedWidthOf_nonneg (e : Measurable.t) :
  connectionWithinBlock e -> 0 <= connectedWidthOf e.
Proof.
  unfold connectionWithinBlock, connectedWidthOf. intros H.
  destruct (Measurable.isInput e); [|lia].
  destruct (H eq_refl) as [Hc Hw].
  destruct (String.eqb (Measurable.type e) "statement input"); [lia|].
  destruct (String.eqb (Measurable.type e) "external value input"); [|lia].
  destruct (Z.eqb_spec (Measurable.connectedBlockWidth e) 0) as [|Hnz]; [lia|].
  specialize (Hw Hnz). lia.
Qed.

Lemma sumConnectedWidths_nonneg (elems : list Measurable.t) :
  Forall connectionWithinBlock elems -> 0 <= sumConnectedWidths elems.
Proof.
  induction 1 as [|e rest He _ IH]; cbn [sumConnectedWidths foldr]; [lia|].
  fold (sumConnectedWidths rest).
  pose proof (connectedWidthOf_nonneg e He). lia.
Qed.

Lemma sumConnectedWidths_no_input (elems : list Measurable.t) :
  Forall (fun e => Measurable.isInput e = false) elems ->
  sumConnectedWidths elems = 0.
Proof.
  induction 1 as [|e rest He _ IH]; cbn [sumConnectedWidths foldr];
    [reflexivity|].
  fold (sumConnectedWidths rest). unfold connectedWidthOf.
  rewrite He, IH. reflexivity.
Qed.

(** X9: connected blocks never narrow an input row: when every input of the
    row has a non-negative [connectedBlockWidth] that, unless it is 0, is at
    least its [connectionWidth], [measure] leaves
    [width <= widthWithConnectedBlocks]; and both are equal on an input row
    without inputs. *)
Theorem connected_blocks_never_narrow (env : Env) (r : InputRow.t) :
  let b' := InputRow.base (InputRow.measure env r) in
  (Forall connectionWithinBlock (Row.elements (InputRow.base r)) ->
   Row.width b' <= Row.widthWithConnectedBlocks b') /\
  (Forall (fun e => Measurable.isInput e = false)
          (Row.elements (InputRow.base r)) ->
   Row.widthWithConnectedBlocks b' = Row.width b').
Proof.
  intros b'. subst b'. rewrite InputRow_measure_closed.
  cbn -[maxHeight sumWidths sumConnectedWidths]. split.
  - intros Hall. pose proof (sumConnectedWidths_nonneg _ Hall). lia.
  - intros Hall. rewrite (sumConnectedWidths_no_input _ Hall). lia.
Qed.

Lemma connected_blocks_never_narrow_witness :
  let input := Measurable.mk "external value input" true 40 10 0 50 30 in
  let r :=
    InputRow.mk
      (Row.mk "input row" [exampleMeasurable "field" 12 8; input] 0 0 0 0 0
              0 0 false false false false false) in
  Forall connectionWithinBlock (Row.elements (InputRow.base r)) /\
  Row.width (InputRow.base (InputRow.measure exampleEnv r))
    <= Row.widthWithConnectedBlocks
         (InputRow.base (InputRow.measure exampleEnv r)).
Proof.
  intros input r.
  assert (Hall : Forall connectionWithinBlock
                        (Row.elements (InputRow.base r))).
  { repeat constructor; intros Hin; cbn in *; try discriminate; lia. }
  split; [exact Hall|].
  exact (proj1 (connected_blocks_never_narrow exampleEnv r) Hall).
Defined.

(** ** Rows without a hat or a next connection *)

(** X11: [TopRow.measure] never changes [startY] on a row without a hat, and
    [BottomRow.measure] never changes [overhangY] on a row without a next
    connection (hats and next connections that are spacers do not count). *)
Theorem measure_keeps_offsets (env : Env) :
  (forall r : TopRow.t,
     Forall (fun e => isHatElement env e = false)
            (Row.elements (TopRow.base r)) ->
     TopRow.startY (TopRow.measure env r) = TopRow.startY r) /\
  (forall r : BottomRow.t,
     Forall (fun e => isNextConnectionElement env e = false)
            (Row.elements (BottomRow.base r)) ->
     BottomRow.overhangY (BottomRow.measure env r) = BottomRow.overhangY r).
Proof.
  split.
  - intros r Hall. rewrite TopRow_measure_closed. cbn.
    unfold lastHatStartY. apply lastWrite_unchanged. exact Hall.
  - intros r Hall. rewrite BottomRow_measure_closed. cbn.
    unfold lastOverhangY. apply lastWrite_unchanged. exact Hall.
Qed.

Lemma measure_keeps_offsets_witness :
  let r :=
    BottomRow.mk
      (Row.mk "bottom row"
              [exampleMeasurable "round corner" 8 4;
               exampleMeasurable "in-row spacer" 20 0]
              0 0 4 0 0 0 0 false false false false false)
      false None 7 false in
  Forall (fun e => isNextConnectionElement exampleEnv e = false)
         (Row.elements (BottomRow.base r)) /\
  BottomRow.overhangY (BottomRow.measure exampleEnv r) = 7.
Proof.
  intros r.
  assert (Hall : Forall (fun e => isNextConnectionElement exampleEnv e = false)
                        (Row.elements (BottomRow.base r)))
    by (repeat constructor).
  split; [exact Hall|].
  exact (proj2 (measure_keeps_offsets exampleEnv) r Hall).
Defined.

(** ** What [populate] leaves on the row *)

Lemma TopRow_populate_closed (env : Env) (r : TopRow.t)
    (block : BlockSvg.t) :
  TopRow.populate env r block =
  let b := TopRow.base r in
  let hat := TopRow.hasHat env block in
  TopRow.mk
    (Row.mk (Row.type b)
       (Row.elements b
        ++ (if TopRow.squareCorner env block then SquareCorner env
            else RoundCorner env)
        :: (if hat then [Hat env]
            else match BlockSvg.previousConnection block with
                 | Some c => [PreviousConnection env c]
                 | None => []
                 end))
       (Row.height b) (Row.width b)
       (if TopRow.precedesStatement env block
           && negb (BlockSvg.isCollapsed block)
        then LARGE_PADDING env else MEDIUM_PADDING env)
       (Row.minWidth b) (Row.widthWithConnectedBlocks b) (Row.yPos b)
       (Row.xPos b) (Row.hasExternalInput b) (Row.hasStatement b)
       (Row.hasInlineInput b) (Row.hasDummyInput b) (Row.hasJaggedEdge b))
    (if hat then Measurable.startY (Hat env) else TopRow.startY r)
    (if hat then TopRow.hasPreviousConnection r
     else match BlockSvg.previousConnection block with
          | Some _ => true
          | None => TopRow.hasPreviousConnection r
          end)
    (if hat then TopRow.connection r
     else match BlockSvg.previousConnection block with
          | Some c => Some (PreviousConnection env c)
          | None => TopRow.connection r
          end).
Proof.
  unfold TopRow.populate.
  destruct r as [[ty els h w mh mw wc y x f1 f2 f3 f4 f5] sy hp c].
  destruct (TopRow.squareCorner env block), (TopRow.hasHat env block),
    (BlockSvg.previousConnection block),
    (TopRow.precedesStatement env block && negb (BlockSvg.isCollapsed block));
    unfold TopRow.on_base, TopRow.set_startY, TopRow.set_hasPreviousConnection,
      TopRow.set_connection, Row.push, Row.set_elements, Row.set_minHeight;
    cbn; rewrite <- ?app_assoc; reflexivity.
Qed.

Lemma BottomRow_populate_closed (env : Env) (r : BottomRow.t)
    (block : BlockSvg.t) :
  BottomRow.populate env r block =
  let b := BottomRow.base r in
  BottomRow.mk
    (Row.mk (Row.type b)
       (Row.elements b
        ++ (if BottomRow.squareCorner block then SquareCorner env
            else RoundCorner env)
        :: match BlockSvg.nextConnection block with
           | Some c => [NextConnection env c]
           | None => []
           end)
       (Row.height b) (Row.width b)
       (if BottomRow.followsStatement env block then LARGE_PADDING env
        else NOTCH_height env)
       (Row.minWidth b) (Row.widthWithConnectedBlocks b) (Row.yPos b)
       (Row.xPos b) (Row.hasExternalInput b) (Row.hasStatement b)
       (Row.hasInlineInput b) (Row.hasDummyInput b) (Row.hasJaggedEdge b))
    (bool_decide (is_Some (BlockSvg.nextConnection block)))
    match BlockSvg.nextConnection block with
    | Some c => Some (NextConnection env c)
    | None => BottomRow.connection r
    end
    (BottomRow.overhangY r)
    (BottomRow.followsStatement env block && BlockSvg.getInputsInline block).
Proof.
  unfold BottomRow.populate.
  destruct r as [[ty els h w mh mw wc y x f1 f2 f3 f4 f5] hn c oy fw].
  destruct (BottomRow.squareCorner block),
    (BottomRow.followsStatement env block),
    (BlockSvg.nextConnection block);
    unfold BottomRow.on_base, BottomRow.set_hasNextConnection,
      BottomRow.set_connection, BottomRow.set_hasFixedWidth, Row.push,
      Row.set_elements, Row.set_minHeight;
    cbn; rewrite <- ?app_assoc; reflexivity.
Qed.

Lemma last_app_cons {A : Type} (l : list A) (x : A) (rest : list A) :
  last (l ++ x :: rest) = last (x :: rest).
Proof.
  destruct rest as [|y rest] using rev_ind.
  - apply last_snoc.
  - rewrite app_comm_cons, app_assoc, !last_snoc. reflexivity.
Qed.

(** X12: the previous connection of a top row.  On a block with a hat
    [TopRow.populate] creates no previous connection, even when the block has
    one: [connection] and [hasPreviousConnection] keep their values.
    Otherwise, when the block has a previous connection, [connection] is the
    PreviousConnection made from it, [hasPreviousConnection] is true and
    that same element is the last element of the row; without one the three
    fields [connection], [hasPreviousConnection] and [startY] keep their
    values.  So after populating a freshly constructed top row,
    [hasPreviousConnection] holds exactly when [connection] is set. *)
Theorem TopRow_populate_connection (env : Env) (r : TopRow.t)
    (block : BlockSvg.t) :
  let r' := TopRow.populate env r block in
  (TopRow.hasHat env block = true ->
   TopRow.connection r' = TopRow.connection r /\
   TopRow.hasPreviousConnection r' = TopRow.hasPreviousConnection r) /\
  (TopRow.hasHat env block = false ->
   forall c, BlockSvg.previousConnection block = Some c ->
     TopRow.connection r' = Some (PreviousConnection env c) /\
     TopRow.hasPreviousConnection r' = true /\
     TopRow.startY r' = TopRow.startY r /\
     last (Row.elements (TopRow.base r')) = TopRow.connection r') /\
  (TopRow.hasHat env block = false ->
   BlockSvg.previousConnection block = None ->
   TopRow.connection r' = TopRow.connection r /\
   TopRow.hasPreviousConnection r' = TopRow.hasPreviousConnection r /\
   TopRow.startY r' = TopRow.startY r) /\
  (TopRow.hasPreviousConnection (TopRow.populate env TopRow.new block) = true
   <-> is_Some (TopRow.connection (TopRow.populate env TopRow.new block))).
Proof.
  intros r'. subst r'. rewrite !TopRow_populate_closed.
  cbn -[TopRow.hasHat TopRow.squareCorner TopRow.precedesStatement].
  split; [|split; [|split]].
  - intros ->. split; reflexivity.
  - intros -> c ->. repeat split. rewrite last_app_cons. reflexivity.
  - intros -> ->. repeat split.
  - destruct (TopRow.hasHat env block).
    + cbn. split; [discriminate|]. intros [? [=]].
    + destruct (BlockSvg.previousConnection block); cbn.
      * split; [eauto|reflexivity].
      * split; [discriminate|]. intros [? [=]].
Qed.

Lemma TopRow_populate_connection_witness :
  let block :=
    BlockSvg.mk 2%nat None (Some 5%nat) (Some 6%nat) None [] false false
                None None in
  (TopRow.hasHat exampleEnv block = false /\
   BlockSvg.previousConnection block = Some 5%nat) /\
  TopRow.connection (TopRow.populate exampleEnv TopRow.new block) =
  Some (PreviousConnection exampleEnv 5%nat).
Proof.
  intros block.
  assert (Hhat : TopRow.hasHat exampleEnv block = false) by reflexivity.
  assert (Hprev : BlockSvg.previousConnection block = Some 5%nat)
    by reflexivity.
  split; [split; assumption|].
  destruct (TopRow_populate_connection exampleEnv TopRow.new block)
    as (_ & Hconn & _).
  exact (proj1 (Hconn Hhat 5%nat Hprev)).
Defined.

(** X13: the next connection of a bottom row.  After [BottomRow.populate],
    [hasNextConnection] tells whether the block has a next connection; when
    it has one, [connection] is the NextConnection made from it and that
    same element is the last element of the row, and when it has none
    [connection] keeps its value.  A row of fixed width has the large
    minimal height and belongs to a block with inline inputs; [overhangY] is
    not touched. *)
Theorem BottomRow_populate_connection (env : Env) (r : BottomRow.t)
    (block : BlockSvg.t) :
  let r' := BottomRow.populate env r block in
  (BottomRow.hasNextConnection r' = true <->
   is_Some (BlockSvg.nextConnection block)) /\
  (forall c, BlockSvg.nextConnection block = Some c ->
     BottomRow.connection r' = Some (NextConnection env c) /\
     last (Row.elements (BottomRow.base r')) = BottomRow.connection r') /\
  (BlockSvg.nextConnection block = None ->
   BottomRow.connection r' = BottomRow.connection r) /\
  (BottomRow.hasFixedWidth r' = true ->
   Row.minHeight (BottomRow.base r') = LARGE_PADDING env /\
   BlockSvg.getInputsInline block = true) /\
  BottomRow.overhangY r' = BottomRow.overhangY r.
Proof.
  intros r'. subst r'. rewrite !BottomRow_populate_closed.
  cbn -[BottomRow.squareCorner BottomRow.followsStatement].
  split; [|split; [|split; [|split]]].
  - apply bool_decide_eq_true.
  - intros c ->. split; [reflexivity|]. rewrite last_app_cons. reflexivity.
  - intros ->. reflexivity.
  - intros [Hf Hi]%andb_true_iff. rewrite Hf. split; [reflexivity|exact Hi].
  - reflexivity.
Qed.

Lemma BottomRow_populate_connection_witness :
  let block :=
    BlockSvg.mk 2%nat None (Some 5%nat) (Some 6%nat) None [Input.mk 3] false
                true None None in
  BottomRow.hasFixedWidth (BottomRow.populate exampleEnv BottomRow.new block)
    = true /\
  Row.minHeight
    (BottomRow.base (BottomRow.populate exampleEnv BottomRow.new block)) =
  LARGE_PADDING exampleEnv.
Proof.
  intros block.
  assert (Hfix : BottomRow.hasFixedWidth
                   (BottomRow.populate exampleEnv BottomRow.new block) = true)
    by reflexivity.
  split; [exact Hfix|].
  destruct (BottomRow_populate_connection exampleEnv BottomRow.new block)
    as (_ & _ & _ & Hfixed & _).
  exact (proj1 (Hfixed Hfix)).
Defined.

(** X14: the minimal height that [populate] sets, whatever it was before.
    On a top row it is MEDIUM_PADDING for a block without inputs and for a
    collapsed block, and otherwise LARGE_PADDING exactly when the first input
    is a statement input.  On a bottom row it is the height of the notch for
    a block without inputs, and otherwise LARGE_PADDING exactly when the last
    input is a statement input, collapsed or not. *)
Theorem populate_minHeight (env : Env) (block : BlockSvg.t) :
  (forall r : TopRow.t,
     let mh := Row.minHeight (TopRow.base (TopRow.populate env r block)) in
     (BlockSvg.inputList block = [] -> mh = MEDIUM_PADDING env) /\
     (BlockSvg.isCollapsed block = true -> mh = MEDIUM_PADDING env) /\
     (forall first rest,
        BlockSvg.inputList block = first :: rest ->
        BlockSvg.isCollapsed block = false ->
        (Input.type first = NEXT_STATEMENT env -> mh = LARGE_PADDING env) /\
        (Input.type first <> NEXT_STATEMENT env ->
         mh = MEDIUM_PADDING env))) /\
  (forall r : BottomRow.t,
     let mh :=
       Row.minHeight (BottomRow.base (BottomRow.populate env r block)) in
     (BlockSvg.inputList block = [] -> mh = NOTCH_height env) /\
     (forall rest final,
        BlockSvg.inputList block = rest ++ [final] ->
        (Input.type final = NEXT_STATEMENT env -> mh = LARGE_PADDING env) /\
        (Input.type final <> NEXT_STATEMENT env -> mh = NOTCH_height env))).
Proof.
  split.
  - intros r mh. subst mh. rewrite TopRow_populate_closed.
    cbn -[TopRow.hasHat TopRow.squareCorner].
    unfold TopRow.precedesStatement.
    split; [|split].
    + intros ->. reflexivity.
    + intros ->. rewrite andb_false_r. reflexivity.
    + intros first rest -> ->. rewrite andb_true_r.
      destruct (Z.eqb_spec (Input.type first) (NEXT_STATEMENT env));
        split; congruence.
  - intros r mh. subst mh. rewrite BottomRow_populate_closed.
    cbn -[BottomRow.squareCorner]. unfold BottomRow.followsStatement.
    split.
    + intros ->. reflexivity.
    + intros rest final ->. rewrite last_snoc.
      destruct (Z.eqb_spec (Input.type final) (NEXT_STATEMENT env));
        split; congruence.
Qed.

Lemma populate_minHeight_witness :
  let block :=
    BlockSvg.mk 2%nat None (Some 5%nat) (Some 6%nat) None
                [Input.mk 1; Input.mk 3] false false None None in
  (BlockSvg.inputList block = [Input.mk 1] ++ [Input.mk 3] /\
   Input.type (Input.mk 3) = NEXT_STATEMENT exampleEnv) /\
  Row.minHeight
    (BottomRow.base (BottomRow.populate exampleEnv BottomRow.new block)) =
  LARGE_PADDING exampleEnv.
Proof.
  intros block.
  assert (Hl : BlockSvg.inputList block = [Input.mk 1] ++ [Input.mk 3])
    by reflexivity.
  assert (Hty : Input.type (Input.mk 3) = NEXT_STATEMENT exampleEnv)
    by reflexivity.
  split; [split; assumption|].
  destruct (populate_minHeight exampleEnv block) as [_ Hbottom].
  destruct (Hbottom BottomRow.new) as [_ Hlast].
  exact (proj1 (Hlast _ _ Hl) Hty).
Defined.

(** X15: [populate] only appends elements and sets [minHeight] and the
    fields of the connection: the elements already on the row stay a prefix
    of its elements, and the type, the sizes [width], [height], [minWidth]
    and [widthWithConnectedBlocks], the position and the five flags of the
    row are those before the call, as is [overhangY] of a bottom row. *)
Theorem populate_frame (env : Env) (block : BlockSvg.t) :
  (forall r : TopRow.t,
     exists els mh sy hp c,
       Row.elements (TopRow.base r) `prefix_of` els /\
       TopRow.populate env r block =
       let b := TopRow.base r in
       TopRow.mk
         (Row.mk (Row.type b) els (Row.height b) (Row.width b) mh
                 (Row.minWidth b) (Row.widthWithConnectedBlocks b)
                 (Row.yPos b) (Row.xPos b) (Row.hasExternalInput b)
                 (Row.hasStatement b) (Row.hasInlineInput b)
                 (Row.hasDummyInput b) (Row.hasJaggedEdge b))
         sy hp c) /\
  (forall r : BottomRow.t,
     exists els mh hn c fw,
       Row.elements (BottomRow.base r) `prefix_of` els /\
       BottomRow.populate env r block =
       let b := BottomRow.base r in
       BottomRow.mk
         (Row.mk (Row.type b) els (Row.height b) (Row.width b) mh
                 (Row.minWidth b) (Row.widthWithConnectedBlocks b)
                 (Row.yPos b) (Row.xPos b) (Row.hasExternalInput b)
                 (Row.hasStatement b) (Row.hasInlineInput b)
                 (Row.hasDummyInput b) (Row.hasJaggedEdge b))
         hn c (BottomRow.overhangY r) fw).
Proof.
  split.
  - intros r. rewrite TopRow_populate_closed.
    eexists _, _, _, _, _. split; [|reflexivity].
    eexists. reflexivity.
  - intros r. rewrite BottomRow_populate_closed.
    eexists _, _, _, _, _. split; [|reflexivity].
    eexists. reflexivity.
Qed.

(** X16: [populate] is not idempotent: every call makes the row longer, by
    two elements on a top row when the block has a hat or a previous
    connection and on a bottom row when the block has a next connection, by
    one element (the corner) otherwise. *)
Theorem populate_grows_row (env : Env) (block : BlockSvg.t) :
  (forall r : TopRow.t,
     length (Row.elements (TopRow.base (TopRow.populate env r block))) =
     (length (Row.elements (TopRow.base r))
      + (if TopRow.hasHat env block
            || bool_decide (is_Some (BlockSvg.previousConnection block))
         then 2 else 1))%nat) /\
  (forall r : BottomRow.t,
     length (Row.elements (BottomRow.base (BottomRow.populate env r block))) =
     (length (Row.elements (BottomRow.base r))
      + (if bool_decide (is_Some (BlockSvg.nextConnection block))
         then 2 else 1))%nat).
Proof.
  split.
  - intros r. rewrite TopRow_populate_elements, length_app.
    destruct (TopRow.hasHat env block); [reflexivity|].
    destruct (BlockSvg.previousConnection block); reflexivity.
  - intros r. rewrite BottomRow_populate_elements, length_app.
    destruct (BlockSvg.nextConnection block); reflexivity.
Qed.

(** ** From a block to a measured row *)

Lemma TopRow_squareCorner_hat (env : Env) (block : BlockSvg.t) :
  TopRow.hasHat env block = true -> TopRow.squareCorner env block = true.
Proof.
  intros Hhat. unfold TopRow.squareCorner. rewrite Hhat.
  rewrite orb_true_r. reflexivity.
Qed.

Lemma stackedHeight_corner (env : Env) (stacks : Measurable.t -> bool)
    (h : Z) (corner : Measurable.t) (rest : list Measurable.t) :
  negb (isSpacer env corner) && stacks corner = false ->
  stackedHeight env stacks h (corner :: rest) =
  stackedHeight env stacks (maxHeight env h [corner]) rest.
Proof.
  intros Hc. cbn [stackedHeight]. rewrite maxHeight_cons.
  destruct (isSpacer env corner); [reflexivity|].
  cbn in Hc. rewrite Hc. cbn [foldr fmap list_fmap filter list_filter].
  unfold maxHeight. cbn. rewrite (Z.max_comm h). reflexivity.
Qed.

(** X17: a freshly constructed row, populated from a block and measured.
    On a top row of a block with a hat the elements are the square corner and
    the hat, the width is the sum of their widths, [startY] is the hat's and
    the height is the hat's height on top of the maximum of the minimal
    height and the corner's height.  On a bottom row of a block with a next
    connection the elements are the corner and the next connection, the
    width is the sum of their widths, [overhangY] is the height of the next
    connection and the height is that height on top of the maximum of the
    minimal height and the corner's height.  (The hat and the next
    connection carry their type and are not spacers; the corner is not
    taken for one of them.) *)
Theorem populate_then_measure (env : Env) (block : BlockSvg.t) :
  (TopRow.hasHat env block = true ->
   Measurable.type (Hat env) = "hat" -> isSpacer env (Hat env) = false ->
   isHatElement env (SquareCorner env) = false ->
   let p := TopRow.populate env TopRow.new block in
   let r' := TopRow.measure env p in
   Row.elements (TopRow.base r') = [SquareCorner env; Hat env] /\
   Row.width (TopRow.base r') =
     Measurable.width (SquareCorner env) + Measurable.width (Hat env) /\
   Row.widthWithConnectedBlocks (TopRow.base r') = Row.width (TopRow.base r') /\
   TopRow.startY r' = Measurable.startY (Hat env) /\
   Row.height (TopRow.base r') =
     Z.max (maxHeight env (Row.minHeight (TopRow.base p)) [SquareCorner env]
            + Measurable.height (Hat env))
           (Measurable.height (Hat env))) /\
  (forall c,
     BlockSvg.nextConnection block = Some c ->
     Measurable.type (NextConnection env c) = "next connection" ->
     isSpacer env (NextConnection env c) = false ->
     let corner :=
       if BottomRow.squareCorner block then SquareCorner env
       else RoundCorner env in
     isNextConnectionElement env corner = false ->
     let p := BottomRow.populate env BottomRow.new block in
     let r' := BottomRow.measure env p in
     Row.elements (BottomRow.base r') = [corner; NextConnection env c] /\
     Row.width (BottomRow.base r') =
       Measurable.width corner + Measurable.width (NextConnection env c) /\
     Row.widthWithConnectedBlocks (BottomRow.base r') =
       Row.width (BottomRow.base r') /\
     BottomRow.overhangY r' = Measurable.height (NextConnection env c) /\
     Row.height (BottomRow.base r') =
       Z.max (maxHeight env (Row.minHeight (BottomRow.base p)) [corner]
              + Measurable.height (NextConnection env c))
             (Measurable.height (NextConnection env c))).
Proof.
  split.
  - intros Hhat Hty Hsp Hcorner p r'. subst r' p.
    rewrite TopRow_measure_closed, TopRow_populate_closed.
    rewrite (TopRow_squareCorner_hat env block Hhat), Hhat.
    cbn -[maxHeight stackedHeight].
    rewrite (stackedHeight_corner env isHatType _ _ _ Hcorner).
    cbn [stackedHeight]. unfold isHatType at 1. rewrite Hsp, Hty.
    unfold lastHatStartY. cbn [foldl]. rewrite Hcorner.
    unfold isHatElement. rewrite Hsp, Hty. cbn.
    repeat split; lia.
  - intros c Hc Hty Hsp corner Hcorner p r'. subst r' p.
    rewrite BottomRow_measure_closed, BottomRow_populate_closed.
    rewrite Hc. fold corner.
    cbn -[maxHeight stackedHeight corner].
    rewrite (stackedHeight_corner env isNextConnectionType _ _ _ Hcorner).
    cbn [stackedHeight]. unfold isNextConnectionType at 1. rewrite Hsp, Hty.
    unfold lastOverhangY. cbn [foldl]. rewrite Hcorner.
    unfold isNextConnectionElement. rewrite Hsp, Hty. cbn.
    repeat split; lia.
Qed.

Lemma populate_then_measure_witness :
  let block :=
    BlockSvg.mk 2%nat None (Some 5%nat) (Some 6%nat) None [] false false
                None None in
  (BlockSvg.nextConnection block = Some 6%nat /\
   Measurable.type (NextConnection exampleEnv 6%nat) = "next connection" /\
   isSpacer exampleEnv (NextConnection exampleEnv 6%nat) = false /\
   isNextConnectionElement exampleEnv (RoundCorner exampleEnv) = false) /\
  BottomRow.overhangY
    (BottomRow.measure exampleEnv
       (BottomRow.populate exampleEnv BottomRow.new block)) = 4 /\
  Row.height
    (BottomRow.base
       (BottomRow.measure exampleEnv
          (BottomRow.populate exampleEnv BottomRow.new block))) = 8.
Proof.
  intros block.
  split; [repeat split|].
  destruct (populate_then_measure exampleEnv block) as [_ Hbottom].
  destruct (Hbottom 6%nat eq_refl eq_refl eq_refl eq_refl)
    as (_ & _ & _ & Hover & Hheight).
  split; [exact Hover|exact Hheight].
Defined.

(** ** Rows without a last input *)

(** X18: [getLastInput] returns null only on a row without inputs: when
    every field of the row has a parent input and the result is null, no
    element of the row that is not a spacer is an input or a field. *)
Theorem getLastInput_null (env : Env) (fenv : FieldEnv)
    (elems : list Measurable.t) :
  getLastInput env fenv elems = inl None ->
  (forall e, e ∈ elems -> isField fenv e = true ->
             is_Some (parentInput fenv e)) ->
  forall e, e ∈ elems -> stopsLastInput env fenv e = false.
Proof.
  induction elems as [|e0 elems IH] using rev_ind;
    intros Hnull Hparents e Hin.
  - inversion Hin.
  - rewrite getLastInput_snoc in Hnull.
    assert (Hparents' : forall e', e' ∈ elems -> isField fenv e' = true ->
                                   is_Some (parentInput fenv e')).
    { intros e' He'. apply Hparents, elem_of_app. left. exact He'. }
    assert (Hfield : isField fenv e0 = true ->
                     is_Some (parentInput fenv e0)).
    { apply Hparents, elem_of_app. right.
      apply list_elem_of_singleton. reflexivity. }
    apply elem_of_app in Hin as [Hin|Hin].
    + apply IH; [|exact Hparents'|exact Hin].
      destruct (isSpacer env e0); [exact Hnull|].
      destruct (Measurable.isInput e0); [discriminate|].
      destruct (isField fenv e0); [|exact Hnull].
      destruct (Hfield eq_refl) as [x Hx]. congruence.
    + apply list_elem_of_singleton in Hin. subst e.
      unfold stopsLastInput.
      destruct (isSpacer env e0); [reflexivity|].
      destruct (Measurable.isInput e0); [discriminate|].
      destruct (isField fenv e0); [|reflexivity].
      destruct (Hfield eq_refl) as [x Hx]. congruence.
Qed.

Lemma getLastInput_null_witness :
  let corner := exampleMeasurable "round corner" 8 4 in
  let elems := [corner; exampleMeasurable "in-row spacer" 5 0] in
  (getLastInput exampleEnv exampleFieldEnv elems = inl None /\
   forall e, e ∈ elems -> isField exampleFieldEnv e = true ->
             is_Some (parentInput exampleFieldEnv e)) /\
  stopsLastInput exampleEnv exampleFieldEnv corner = false.
Proof.
  intros corner elems.
  assert (Hnull : getLastInput exampleEnv exampleFieldEnv elems = inl None)
    by reflexivity.
  assert (Hparents : forall e, e ∈ elems ->
                               isField exampleFieldEnv e = true ->
                               is_Some (parentInput exampleFieldEnv e)).
  { intros e _ Hf. unfold exampleFieldEnv in *. cbn in *. rewrite Hf. eauto. }
  split; [split; assumption|].
  apply (getLastInput_null exampleEnv exampleFieldEnv elems Hnull Hparents).
  left.
Defined.
